(** * Hello World API: a shallow embedding of [app/main.py]

    The service is a FastAPI application with five handlers ([root],
    [health_check], [hello], [greet], [info]).  The handlers are embedded
    as functions in a reader monad over the two things they read from the
    outside world: the process environment ([os.getenv]) and the clock
    ([datetime.utcnow]).  Python strings are sequences of Unicode code
    points, so that [str.strip] can be given its real character set. *)

From Stdlib Require Import NArith ZArith String Ascii List Lia.
From stdpp Require Import base option list gmap.

Local Open Scope N_scope.
#[local] Set Warnings "-register-all".

(** ** Python strings *)

(** A [str] is a sequence of code points. *)
Abbreviation str := (list N).

(** String literals of the source, as code-point sequences. *)
Definition py (s : string) : str :=
  map N_of_ascii (list_ascii_of_string s).

(** [str.isspace] on one character: the code points CPython lists in
    [_PyUnicode_IsWhitespace].  These are the characters the argument-less
    [str.strip()] removes. *)
Definition isspace (c : N) : bool :=
  ((0x09 <=? c) && (c <=? 0x0D))
  || ((0x1C <=? c) && (c <=? 0x20))
  || (c =? 0x85) || (c =? 0xA0) || (c =? 0x1680)
  || ((0x2000 <=? c) && (c <=? 0x200A))
  || (c =? 0x2028) || (c =? 0x2029) || (c =? 0x202F)
  || (c =? 0x205F) || (c =? 0x3000).

(** [str.lstrip()]: skip the leading whitespace. *)
Fixpoint lstrip (s : str) : str :=
  match s with
  | [] => []
  | c :: s' => if isspace c then lstrip s' else s
  end.

(** [str.rstrip()]: skip the trailing whitespace. *)
Definition rstrip (s : str) : str := rev (lstrip (rev s)).

(** [str.strip()]: both ends. *)
Definition strip (s : str) : str := rstrip (lstrip s).

(** Truth value of a [str]: the empty string is the only falsy one. *)
Definition truthy (s : str) : bool :=
  match s with [] => false | _ :: _ => true end.

(** ** The clock: [datetime.utcnow().isoformat()] *)

(** A naive [datetime] value, as [datetime.utcnow()] returns it. *)
Record datetime := {
  year : N; month : N; day : N;
  hour : N; minute : N; second : N; microsecond : N
}.

Definition is_leap (y : N) : bool :=
  (y mod 4 =? 0) && (negb (y mod 100 =? 0) || (y mod 400 =? 0)).

Definition days_in_month (y m : N) : N :=
  if m =? 2 then (if is_leap y then 29 else 28)
  else if (m =? 4) || (m =? 6) || (m =? 9) || (m =? 11) then 30 else 31.

(** The ranges every [datetime] object satisfies. *)
Definition valid_datetime (d : datetime) : bool :=
  (1 <=? year d) && (year d <=? 9999)
  && (1 <=? month d) && (month d <=? 12)
  && (1 <=? day d) && (day d <=? days_in_month (year d) (month d))
  && (hour d <? 24) && (minute d <? 60) && (second d <? 60)
  && (microsecond d <? 1000000).

(** The character of a decimal digit. *)
Definition digit (n : N) : N := 48 + n mod 10.

(** ["%0<width>d" % n] for an [n] of at most [width] digits. *)
Fixpoint zfill (width : nat) (n : N) : str :=
  match width with
  | O => []
  | S w => zfill w (n / 10) ++ [digit n]
  end.

(** [datetime.isoformat()] of a naive value: [YYYY-MM-DDTHH:MM:SS], followed
    by [.ffffff] when the microsecond is not zero. *)
Definition isoformat (d : datetime) : str :=
  zfill 4 (year d) ++ py "-" ++ zfill 2 (month d) ++ py "-" ++ zfill 2 (day d)
  ++ py "T" ++ zfill 2 (hour d) ++ py ":" ++ zfill 2 (minute d) ++ py ":"
  ++ zfill 2 (second d)
  ++ (if microsecond d =? 0 then [] else py "." ++ zfill 6 (microsecond d)).

(** *** Reading an ISO-8601 timestamp back *)

Definition digit_value (c : N) : option N :=
  if (48 <=? c) && (c <=? 57) then Some (c - 48) else None.

(** The number written by a run of decimal digits. *)
Fixpoint number_from (acc : N) (s : str) : option N :=
  match s with
  | [] => Some acc
  | c :: s' =>
      match digit_value c with
      | Some v => number_from (acc * 10 + v) s'
      | None => None
      end
  end.

Definition number (s : str) : option N :=
  match s with [] => None | _ => number_from 0 s end.

(** [s] starts with the character [c]: the rest. *)
Definition expect (c : N) (s : str) : option str :=
  match s with
  | c' :: s' => if c' =? c then Some s' else None
  | [] => None
  end.

(** The first [k] characters read as a number, and the rest. *)
Definition field (k : nat) (s : str) : option (N * str) :=
  if (length (take k s) =? k)%nat
  then n ← number (take k s); Some (n, drop k s)
  else None.

(** An ISO-8601 reader for the extended calendar format with a [T]
    separator and an optional six-digit fraction, as
    [datetime.fromisoformat] accepts it. *)
Definition fromisoformat (s : str) : option datetime :=
  '(y, s) ← field 4 s; s ← expect 45 s;
  '(mo, s) ← field 2 s; s ← expect 45 s;
  '(d, s) ← field 2 s; s ← expect 84 s;
  '(h, s) ← field 2 s; s ← expect 58 s;
  '(mi, s) ← field 2 s; s ← expect 58 s;
  '(se, s) ← field 2 s;
  '(us, s) ← match s with
             | [] => Some (0, [])
             | _ => s ← expect 46 s; field 6 s
             end;
  let dt := {| year := y; month := mo; day := d; hour := h; minute := mi;
               second := se; microsecond := us |} in
  match s with
  | [] => if valid_datetime dt then Some dt else None
  | _ => None
  end.

(** ** JSON values *)

(** Request and response bodies, as [json.loads] gives them.  An object
    keeps its members in order, as a Python [dict] does, each key once.  A
    number written without fraction and exponent is an [int]; any other
    number is a [float], kept here as the text [str] prints for it, the only
    thing the application ever does with it. *)
Inductive json :=
| JNull
| JBool (b : bool)
| JInt (n : Z)
| JFloat (repr : str)
| JStr (s : str)
| JList (items : list json)
| JDict (members : list (str * json)).

(** [d.get(key)] on the members of an object. *)
Fixpoint dict_get (key : str) (members : list (str * json)) : option json :=
  match members with
  | [] => None
  | (k, v) :: rest => if decide (k = key) then Some v else dict_get key rest
  end.

(** ** The text of a number: [str(n)] *)

(** The decimal digits of [n] in front of [acc]; [fuel] bounds the number
    of digits. *)
Fixpoint decimal_from (fuel : nat) (n : N) (acc : str) : str :=
  match fuel with
  | O => acc
  | S fuel' =>
      if n <? 10 then digit n :: acc
      else decimal_from fuel' (n / 10) (digit n :: acc)
  end.

(** A number has no more decimal digits than binary ones. *)
Definition decimal (n : N) : str :=
  decimal_from (N.to_nat (N.succ (N.log2 n))) n [].

(** [str(n)] for an [int] *)
Definition str_of_int (n : Z) : str :=
  match n with
  | Z0 => decimal 0
  | Zpos p => decimal (Npos p)
  | Zneg p => 45 :: decimal (Npos p)
  end.

(** [str(b)] for a [bool] *)
Definition str_of_bool (b : bool) : str :=
  if b then py "True" else py "False".

(** ** What UTF-8 can encode *)

(** A code point that [str.encode("utf-8")] accepts: every code point of
    Unicode but the surrogates [U+D800..U+DFFF], which a [str] can hold (a
    lone [\ud800] escape of a JSON text, an undecodable byte of an
    environment variable) but UTF-8 cannot encode. *)
Definition is_scalar (c : N) : bool :=
  (c <? 0xD800) || ((0xDFFF <? c) && (c <=? 0x10FFFF)).

Definition encodable (s : str) : bool := forallb is_scalar s.

(** [json.dumps(content, ensure_ascii=False, allow_nan=False).encode("utf-8")]
    succeeds: every string of the content, keys included, can be encoded,
    and no number is a NaN or an infinity. *)
Fixpoint json_encodable (j : json) : bool :=
  match j with
  | JNull | JBool _ | JInt _ => true
  | JFloat r =>
      negb (bool_decide (r = py "nan") || bool_decide (r = py "inf")
            || bool_decide (r = py "-inf"))
  | JStr s => encodable s
  | JList items => forallb json_encodable items
  | JDict members =>
      forallb (λ kv, encodable (fst kv) && json_encodable (snd kv)) members
  end.

(** ** The world a handler reads, and the handler monad *)

(** [os.environ] and the reading of the clock. *)
Record World := {
  environ : gmap str str;
  clock : datetime
}.

(** A handler reads the world and changes nothing in it. *)
Definition Handler (A : Type) : Type := World → A.

#[export] Instance Handler_ret : MRet Handler := λ A x _, x.
#[export] Instance Handler_bind : MBind Handler := λ A B f m w, f (m w) w.

(** [os.getenv(key, default)] *)
Definition getenv (key default : str) : Handler str :=
  λ w, match environ w !! key with Some v => v | None => default end.

(** [datetime.utcnow()] *)
Definition utcnow : Handler datetime := clock.

(** ** Pydantic models *)

Record HealthResponse := {
  health_status : str;
  health_timestamp : str;
  health_environment : str;
  health_version : str
}.

Record HelloResponse := {
  hello_message : str;
  hello_timestamp : str
}.

Record GreetingRequest := { name : str }.

Record GreetingResponse := {
  greeting : str;
  greeting_timestamp : str
}.

(** [raise HTTPException(status_code=..., detail=...)] *)
Record HTTPException := {
  exc_status_code : N;
  exc_detail : str
}.

(** What a handler that may raise produces. *)
Inductive outcome (A : Type) :=
| Return (a : A)
| Raise (e : HTTPException).
Arguments Return {A} a.
Arguments Raise {A} e.

(** ** The handlers *)

(** [GET /] *)
Definition root : Handler (list (str * str)) :=
  mret [ (py "message", py "Welcome to Hello World API");
         (py "docs", py "/docs");
         (py "health", py "/health") ].

(** [GET /health] *)
Definition health_check : Handler HealthResponse :=
  now ← utcnow;
  env ← getenv (py "ENVIRONMENT") (py "development");
  mret {| health_status := py "healthy";
          health_timestamp := isoformat now;
          health_environment := env;
          health_version := py "1.0.0" |}.

(** [GET /hello] *)
Definition hello : Handler HelloResponse :=
  now ← utcnow;
  mret {| hello_message := py "Hello, World!";
          hello_timestamp := isoformat now |}.

(** The guard of [greet]: [not request.name or not request.name.strip()]. *)
Definition name_is_blank (request : GreetingRequest) : bool :=
  negb (truthy (name request)) || negb (truthy (strip (name request))).

(** [POST /greet] *)
Definition greet (request : GreetingRequest) : Handler (outcome GreetingResponse) :=
  if name_is_blank request
  then mret (Raise {| exc_status_code := 400;
                      exc_detail := py "Name cannot be empty" |})
  else
    now ← utcnow;
    mret (Return {| greeting := py "Hello, " ++ name request ++ py "!";
                    greeting_timestamp := isoformat now |}).

(** One entry of the [endpoints] list of [info]. *)
Definition endpoint_entry (path method description : string) : json :=
  JDict [ (py "path", JStr (py path));
          (py "method", JStr (py method));
          (py "description", JStr (py description)) ].

(** [GET /info] *)
Definition info : Handler (list (str * json)) :=
  env ← getenv (py "ENVIRONMENT") (py "development");
  mret [ (py "name", JStr (py "Hello World API"));
         (py "version", JStr (py "1.0.0"));
         (py "environment", JStr env);
         (py "endpoints", JList [
            endpoint_entry "/" "GET" "Root endpoint";
            endpoint_entry "/health" "GET" "Health check";
            endpoint_entry "/hello" "GET" "Simple hello";
            endpoint_entry "/greet" "POST" "Personalized greeting";
            endpoint_entry "/info" "GET" "API information" ]) ].

(** ** The application: requests, responses, schema validation *)

(** An incoming request: method, path and the parsed JSON body ([None]
    when the request has no body).  A request whose body is not JSON text
    is turned down before any of the code below runs, and has no place
    here. *)
Record Request := {
  method : str;
  path : str;
  body : option json
}.

(** The functions a route can run: the four documentation endpoints that
    [FastAPI(...)] registers itself ([openapi_url], [docs_url], the OAuth2
    redirect of the docs page and [redoc_url], all left at their defaults
    by [app = FastAPI(title, description, version)]) and the five handlers
    of the module. *)
Inductive Endpoint :=
| Openapi | SwaggerUI | SwaggerRedirect | Redoc
| Root | HealthCheck | Hello | Greet | Info.

(** What the application answers. *)
Inductive Response :=
| JSONResponse (code : N) (content : json)
| RequestValidationError (loc : list str)
| RedirectResponse (url : str)
| GeneratedDocument (page : Endpoint)
| InternalServerError.

Definition status_code (r : Response) : N :=
  match r with
  | JSONResponse code _ => code
  | RequestValidationError _ => 422
  | RedirectResponse _ => 307
  | GeneratedDocument _ => 200
  | InternalServerError => 500
  end.

(** The JSON body of a response, when it has one of its own. *)
Definition json_body (r : Response) : option json :=
  match r with
  | JSONResponse _ content => Some content
  | _ => None
  end.

(** Building a [JSONResponse]: the content is rendered at once, and a
    content that cannot be encoded is an unhandled error, which the server
    answers with a plain 500. *)
Definition render (code : N) (content : json) : Response :=
  if json_encodable content then JSONResponse code content
  else InternalServerError.

(** *** Validation against [GreetingRequest] (pydantic 1) *)

(** The validator of a [str] field: a string is taken as it is, an [int], a
    [float] or a [bool] (an [int] for Python) is replaced by its text, and
    nothing else is accepted. *)
Definition str_validator (v : json) : option str :=
  match v with
  | JStr s => Some s
  | JInt n => Some (str_of_int n)
  | JFloat r => Some r
  | JBool b => Some (str_of_bool b)
  | JNull | JList _ | JDict _ => None
  end.

(** One item of the argument of [dict(...)], as a key and a value: a
    sequence of two elements, which for a parsed body is a list of two
    values, a string of two characters or an object of two keys.  Only a
    string may be the key of a keyword argument. *)
Definition as_item (item : json) : option (str * json) :=
  match item with
  | JList [JStr k; v] => Some (k, v)
  | JStr [a; b] => Some ([a], JStr [b])
  | JDict [(k1, _); (k2, _)] => Some (k1, JStr k2)
  | _ => None
  end.

(** The keyword arguments the model is built from: an object gives its
    members; any other value goes through [dict(value)], which accepts a
    list of items (a later item overriding an earlier one with the same
    key, hence the reversal for [dict_get]) and the empty string. *)
Definition model_input (v : json) : option (list (str * json)) :=
  match v with
  | JDict members => Some members
  | JList items => d ← mapM as_item items; Some (rev d)
  | JStr [] => Some []
  | _ => None
  end.

(** Validation of a request body against [GreetingRequest], whose only
    field is [name: str].  A missing body and [null] are a missing
    parameter; other members than [name] are ignored.  The result is the
    location of the error or the model instance. *)
Definition validate_GreetingRequest (b : option json) : list str + GreetingRequest :=
  match b with
  | None | Some JNull => inl [py "body"]
  | Some v =>
      match model_input v with
      | None => inl [py "body"]
      | Some members =>
          match dict_get (py "name") members with
          | None => inl [py "body"; py "name"]
          | Some x =>
              match str_validator x with
              | Some s => inr {| name := s |}
              | None => inl [py "body"; py "name"]
              end
          end
      end
  end.

(** Serialisation of the response models, field by field. *)
Definition HealthResponse_json (r : HealthResponse) : json :=
  JDict [ (py "status", JStr (health_status r));
          (py "timestamp", JStr (health_timestamp r));
          (py "environment", JStr (health_environment r));
          (py "version", JStr (health_version r)) ].

Definition HelloResponse_json (r : HelloResponse) : json :=
  JDict [ (py "message", JStr (hello_message r));
          (py "timestamp", JStr (hello_timestamp r)) ].

Definition GreetingResponse_json (r : GreetingResponse) : json :=
  JDict [ (py "greeting", JStr (greeting r));
          (py "timestamp", JStr (greeting_timestamp r)) ].

Definition str_dict_json (d : list (str * str)) : json :=
  JDict (map (λ kv, (kv.1, JStr kv.2)) d).

(** The answer to a raised [HTTPException]. *)
Definition http_exception_response (e : HTTPException) : Response :=
  render (exc_status_code e) (JDict [ (py "detail", JStr (exc_detail e)) ]).

(** Running an endpoint on a request.  For [greet] the body is validated
    first and the handler only runs on a valid [GreetingRequest].  What a
    handler returns is rendered as JSON. *)
Definition call (e : Endpoint) (req : Request) : Handler Response :=
  match e with
  | Root => d ← root; mret (render 200 (str_dict_json d))
  | HealthCheck => r ← health_check; mret (render 200 (HealthResponse_json r))
  | Hello => r ← hello; mret (render 200 (HelloResponse_json r))
  | Greet =>
      match validate_GreetingRequest (body req) with
      | inl loc => mret (RequestValidationError loc)
      | inr request =>
          o ← greet request;
          mret (match o with
                | Return r => render 200 (GreetingResponse_json r)
                | Raise e => http_exception_response e
                end)
      end
  | Info => d ← info; mret (render 200 (JDict d))
  | page => mret (GeneratedDocument page)
  end.

(** ** Routing *)

Record Route := {
  route_path : str;
  route_methods : list str;
  endpoint : Endpoint
}.

#[export] Instance Endpoint_eq_dec : EqDecision Endpoint.
Proof. solve_decision. Defined.

#[export] Instance Route_eq_dec : EqDecision Route.
Proof. solve_decision. Defined.

(** The routes written in the module, in the order of their decorators. *)
Definition declared_routes : list Route := [
  {| route_path := py "/"; route_methods := [py "GET"]; endpoint := Root |};
  {| route_path := py "/health"; route_methods := [py "GET"]; endpoint := HealthCheck |};
  {| route_path := py "/hello"; route_methods := [py "GET"]; endpoint := Hello |};
  {| route_path := py "/greet"; route_methods := [py "POST"]; endpoint := Greet |};
  {| route_path := py "/info"; route_methods := [py "GET"]; endpoint := Info |}
].

(** The routes [FastAPI(...)] sets up before any decorator runs; the tests
    of the repository fetch [/openapi.json] and [/docs]. *)
Definition documentation_routes : list Route := [
  {| route_path := py "/openapi.json"; route_methods := [py "GET"; py "HEAD"]; endpoint := Openapi |};
  {| route_path := py "/docs"; route_methods := [py "GET"; py "HEAD"]; endpoint := SwaggerUI |};
  {| route_path := py "/docs/oauth2-redirect"; route_methods := [py "GET"; py "HEAD"]; endpoint := SwaggerRedirect |};
  {| route_path := py "/redoc"; route_methods := [py "GET"; py "HEAD"]; endpoint := Redoc |}
].

(** [app.routes] *)
Definition routes : list Route := documentation_routes ++ declared_routes.

Inductive Match := NONE | PARTIAL | FULL.

(** The pattern of a route without path parameters is the regular
    expression [^path$], applied with [match]: it accepts the path itself
    and, [$] matching before a final newline too, the path followed by one
    newline. *)
Definition route_accepts (r : Route) (p : str) : Prop :=
  p = route_path r ∨ p = route_path r ++ [10].

#[export] Instance route_accepts_dec (r : Route) (p : str) :
  Decision (route_accepts r p).
Proof. unfold route_accepts. apply _. Defined.

(** Two routes whose patterns accept a common path; a list of routes in
    which this happens for no two routes. *)
Definition routes_overlap (r r' : Route) : Prop :=
  route_path r = route_path r'
  ∨ route_path r = route_path r' ++ [10]
  ∨ route_path r' = route_path r ++ [10].

Definition unambiguous (rs : list Route) : Prop :=
  ∀ r r', r ∈ rs → r' ∈ rs → routes_overlap r r' → r = r'.

(** The match of a route: none when the pattern does not accept the path,
    partial when the method is not one of the route's. *)
Definition matches (r : Route) (p m : str) : Match :=
  if decide (route_accepts r p)
  then (if decide (m ∈ route_methods r) then FULL else PARTIAL)
  else NONE.

(** The router's scan of the routes: the first full match wins; failing
    that, the first partial match. *)
Fixpoint scan (rs : list Route) (p m : str) (partial : option Route) : Match * option Route :=
  match rs with
  | [] => match partial with
          | Some r => (PARTIAL, Some r)
          | None => (NONE, None)
          end
  | r :: rs' =>
      match matches r p m with
      | FULL => (FULL, Some r)
      | PARTIAL => scan rs' p m (match partial with Some r0 => Some r0 | None => Some r end)
      | NONE => scan rs' p m partial
      end
  end.

(** [path.rstrip("/")] *)
Fixpoint lstrip_slash (s : str) : str :=
  match s with
  | c :: s' => if c =? 47 then lstrip_slash s' else s
  | [] => []
  end.

Definition rstrip_slash (s : str) : str := rev (lstrip_slash (rev s)).

(** The path the router tries when nothing matched ([redirect_slashes],
    on by default): without its trailing slashes, or with one added. *)
Definition redirect_path (p : str) : str :=
  if decide (last p = Some 47) then rstrip_slash p else p ++ py "/".

(** Some route matches the path, whatever the method. *)
Definition any_route_matches (rs : list Route) (p m : str) : bool :=
  existsb (λ r, match matches r p m with NONE => false | _ => true end) rs.

(** The application on one request. *)
Definition app (req : Request) : Handler Response :=
  match scan routes (path req) (method req) None with
  | (FULL, Some r) => call (endpoint r) req
  | (PARTIAL, Some _) =>
      mret (http_exception_response
              {| exc_status_code := 405; exc_detail := py "Method Not Allowed" |})
  | _ =>
      if negb (bool_decide (path req = py "/"))
         && any_route_matches routes (redirect_path (path req)) (method req)
      then mret (RedirectResponse (redirect_path (path req)))
      else mret (http_exception_response
                   {| exc_status_code := 404; exc_detail := py "Not Found" |})
  end.

(** The same guard written with the strip test alone, as the validation
    rule is usually told: reject when [name.strip()] is empty. *)
Definition name_strips_to_empty (request : GreetingRequest) : bool :=
  bool_decide (strip (name request) = []).

Definition greet_strip_only (request : GreetingRequest) : Handler (outcome GreetingResponse) :=
  if name_strips_to_empty request
  then mret (Raise {| exc_status_code := 400;
                      exc_detail := py "Name cannot be empty" |})
  else
    now ← utcnow;
    mret (Return {| greeting := py "Hello, " ++ name request ++ py "!";
                    greeting_timestamp := isoformat now |}).

(** Requests and response fields, for the statements below. *)
Definition GET (p : string) (b : option json) : Request :=
  {| method := py "GET"; path := py p; body := b |}.

Definition POST (p : string) (b : option json) : Request :=
  {| method := py "POST"; path := py p; body := b |}.

(** [response.json()[key]] *)
Definition response_field (key : string) (r : Response) : option json :=
  match json_body r with
  | Some (JDict members) => dict_get (py key) members
  | _ => None
  end.

(** The pair (path, method) of an entry of the endpoints list. *)
Definition entry_route (e : json) : option (str * str) :=
  match e with
  | JDict members =>
      match dict_get (py "path") members, dict_get (py "method") members with
      | Some (JStr p), Some (JStr m) => Some (p, m)
      | _, _ => None
      end
  | _ => None
  end.

(** The two answers of [POST /greet] to a well-formed body. *)
Definition blank_name_response : Response :=
  JSONResponse 400 (JDict [ (py "detail", JStr (py "Name cannot be empty")) ]).

Definition greeting_response (s : str) (w : World) : Response :=
  JSONResponse 200
    (JDict [ (py "greeting", JStr (py "Hello, " ++ s ++ py "!"));
             (py "timestamp", JStr (isoformat (clock w))) ]).

(** The value of the [ENVIRONMENT] variable, as both [health_check] and
    [info] read it. *)
Definition configured_environment (w : World) : str :=
  match environ w !! py "ENVIRONMENT" with
  | Some v => v
  | None => py "development"
  end.




(** A world whose [ENVIRONMENT] variable holds the byte [0xFF], which
    [os.environ] decodes to the lone surrogate [U+DCFF]. *)
Definition undecodable_world : World :=
  {| environ := {[ py "ENVIRONMENT" := [0xDCFF] ]};
     clock := {| year := 2024; month := 2; day := 29;
                 hour := 7; minute := 5; second := 0; microsecond := 1234 |} |}.

(** The body [{"name": s}]. *)
Definition name_body (s : str) : option json :=
  Some (JDict [ (py "name", JStr s) ]).

(** A world for the examples: no [ENVIRONMENT] variable, some instant. *)
Definition example_clock : datetime :=
  {| year := 2024; month := 2; day := 29;
     hour := 7; minute := 5; second := 0; microsecond := 1234 |}.

Definition example_world : World :=
  {| environ := ∅; clock := example_clock |}.

(** ** The application object *)

(** [app = FastAPI(title=..., description=..., version=...)] *)
Record FastAPI := {
  title : str;
  description : str;
  version : str
}.

Definition app_settings : FastAPI :=
  {| title := py "Hello World API";
     description := py "A simple API demonstrating CI/CD best practices";
     version := py "1.0.0" |}.

(** The application over any list of routes; [app] is [serve routes]. *)
Definition serve (rs : list Route) (req : Request) : Handler Response :=
  match scan rs (path req) (method req) None with
  | (FULL, Some r) => call (endpoint r) req
  | (PARTIAL, Some _) =>
      mret (http_exception_response
              {| exc_status_code := 405; exc_detail := py "Method Not Allowed" |})
  | _ =>
      if negb (bool_decide (path req = py "/"))
         && any_route_matches rs (redirect_path (path req)) (method req)
      then mret (RedirectResponse (redirect_path (path req)))
      else mret (http_exception_response
                   {| exc_status_code := 404; exc_detail := py "Not Found" |})
  end.

(** The characters of a timestamp: digits and the separators [-], [T],
    [:] and [.]. *)
Definition isdigit (c : N) : bool := (48 <=? c) && (c <=? 57).

Definition timestamp_char (c : N) : bool :=
  isdigit c || (c =? 45) || (c =? 84) || (c =? 58) || (c =? 46).

(** ** Order on strings and on instants *)

(** Lexicographic order on sequences of numbers, a proper prefix first:
    this is [<] on [str], and on tuples of integers. *)
Fixpoint lex_ltb (a b : list N) : bool :=
  match a, b with
  | _, [] => false
  | [], _ :: _ => true
  | x :: a', y :: b' => (x <? y) || ((x =? y) && lex_ltb a' b')
  end.

(** [d1 < d2] on naive [datetime] values. *)
Definition datetime_ltb (d1 d2 : datetime) : bool :=
  lex_ltb [ year d1; month d1; day d1; hour d1; minute d1; second d1; microsecond d1 ]
          [ year d2; month d2; day d2; hour d2; minute d2; second d2; microsecond d2 ].

(** ** The test suite, [tests/test_main.py] *)

(** [sub in s] on strings. *)
Fixpoint startswith (pre s : str) : bool :=
  match pre, s with
  | [], _ => true
  | c :: pre', d :: s' => (c =? d) && startswith pre' s'
  | _ :: _, [] => false
  end.

Fixpoint contains (sub s : str) : bool :=
  startswith sub s
  || match s with
     | [] => false
     | _ :: s' => contains sub s'
     end.

(** [response.headers["content-type"]] *)
Definition content_type (r : Response) : option str :=
  match r with
  | JSONResponse _ _ | RequestValidationError _ | GeneratedDocument Openapi =>
      Some (py "application/json")
  | GeneratedDocument _ => Some (py "text/html; charset=utf-8")
  | InternalServerError => Some (py "text/plain; charset=utf-8")
  | RedirectResponse _ => None
  end.

Module TestMain.

(** The test client: [client.get(path)], [client.post(path, json=...)] and
    [client.post(path)]. *)
Definition client_get (p : string) : Handler Response := app (GET p None).
Definition client_post (p : string) (j : option json) : Handler Response :=
  app (POST p j).

(** The assertions of the tests. *)
Definition status_is (code : N) (r : Response) : bool :=
  status_code r =? code.

(** ["key" in data] *)
Definition has_key (key : string) (r : Response) : bool :=
  match response_field key r with Some _ => true | None => false end.

(** [data[key] == value] for a string value *)
Definition field_equals (key : string) (value : str) (r : Response) : bool :=
  match response_field key r with
  | Some (JStr s) => bool_decide (s = value)
  | _ => false
  end.

(** [data[key] is not None] *)
Definition field_not_none (key : string) (r : Response) : bool :=
  match response_field key r with
  | Some JNull | None => false
  | Some _ => true
  end.

(** One test: the world it runs in to whether its assertions hold. *)
Definition test := World → bool.

(** [class TestRootEndpoint] *)
Definition test_root_returns_200 : test :=
  λ w, status_is 200 (client_get "/" w).

Definition test_root_returns_json : test :=
  λ w, bool_decide (content_type (client_get "/" w) = Some (py "application/json")).

Definition test_root_contains_message : test :=
  λ w, let response := client_get "/" w in
       has_key "message" response
       && match response_field "message" response with
          | Some (JStr s) => contains (py "Welcome") s
          | _ => false
          end.

Definition test_root_contains_docs_link : test :=
  λ w, has_key "docs" (client_get "/" w).

(** [class TestHealthEndpoint] *)
Definition test_health_returns_200 : test :=
  λ w, status_is 200 (client_get "/health" w).

Definition test_health_returns_healthy_status : test :=
  λ w, field_equals "status" (py "healthy") (client_get "/health" w).

Definition test_health_contains_timestamp : test :=
  λ w, let response := client_get "/health" w in
       has_key "timestamp" response && field_not_none "timestamp" response.

Definition test_health_contains_environment : test :=
  λ w, has_key "environment" (client_get "/health" w).

Definition test_health_contains_version : test :=
  λ w, let response := client_get "/health" w in
       has_key "version" response && field_equals "version" (py "1.0.0") response.

(** [class TestHelloEndpoint] *)
Definition test_hello_returns_200 : test :=
  λ w, status_is 200 (client_get "/hello" w).

Definition test_hello_returns_message : test :=
  λ w, let response := client_get "/hello" w in
       has_key "message" response
       && field_equals "message" (py "Hello, World!") response.

Definition test_hello_contains_timestamp : test :=
  λ w, has_key "timestamp" (client_get "/hello" w).

(** [class TestGreetEndpoint] *)
Definition test_greet_returns_200_with_valid_name : test :=
  λ w, status_is 200 (client_post "/greet" (name_body (py "Alice")) w).

Definition test_greet_returns_personalized_greeting : test :=
  λ w, field_equals "greeting" (py "Hello, Alice!")
         (client_post "/greet" (name_body (py "Alice")) w).

Definition test_greet_handles_different_names : test :=
  λ w, forallb
         (λ n, field_equals "greeting" (py "Hello, " ++ py n ++ py "!")
                 (client_post "/greet" (name_body (py n)) w))
         [ "Bob"; "Charlie"; "Diana" ]%string.

Definition test_greet_returns_400_for_empty_name : test :=
  λ w, status_is 400 (client_post "/greet" (name_body (py "")) w).

Definition test_greet_returns_400_for_whitespace_name : test :=
  λ w, status_is 400 (client_post "/greet" (name_body (py "   ")) w).

Definition test_greet_returns_422_for_missing_name : test :=
  λ w, status_is 422 (client_post "/greet" (Some (JDict [])) w).

Definition test_greet_contains_timestamp : test :=
  λ w, has_key "timestamp" (client_post "/greet" (name_body (py "Test")) w).

(** [class TestInfoEndpoint] *)
Definition test_info_returns_200 : test :=
  λ w, status_is 200 (client_get "/info" w).

Definition test_info_contains_name : test :=
  λ w, has_key "name" (client_get "/info" w).

Definition test_info_contains_version : test :=
  λ w, has_key "version" (client_get "/info" w).

Definition test_info_contains_endpoints : test :=
  λ w, let response := client_get "/info" w in
       has_key "endpoints" response
       && match response_field "endpoints" response with
          | Some (JList entries) => (0 <? length entries)%nat
          | _ => false
          end.

(** [class TestAPIDocumentation] *)
Definition test_openapi_json_accessible : test :=
  λ w, status_is 200 (client_get "/openapi.json" w).

Definition test_docs_accessible : test :=
  λ w, status_is 200 (client_get "/docs" w).

(** [class TestErrorHandling] *)
Definition test_404_for_nonexistent_endpoint : test :=
  λ w, status_is 404 (client_get "/nonexistent" w).

Definition test_405_for_wrong_method : test :=
  λ w, status_is 405 (client_post "/hello" None w).

(** The fixtures. *)
Definition sample_names : list str :=
  [ py "Alice"; py "Bob"; py "Charlie"; py "Diana"; py "Eve" ].

Definition invalid_names : list str :=
  [ py ""; py "   "; [9]; [10] ].

(** The parametrized tests, on one parameter. *)
Definition test_greet_with_multiple_names (n : str) : test :=
  λ w, let response := client_post "/greet" (name_body n) w in
       status_is 200 response
       && field_equals "greeting" (py "Hello, " ++ n ++ py "!") response.

Definition test_greet_with_invalid_names (invalid_name : str) : test :=
  λ w, status_is 400 (client_post "/greet" (name_body invalid_name) w).

(** All the tests the runner collects. *)
Definition collected : list test :=
  [ test_root_returns_200; test_root_returns_json; test_root_contains_message;
    test_root_contains_docs_link;
    test_health_returns_200; test_health_returns_healthy_status;
    test_health_contains_timestamp; test_health_contains_environment;
    test_health_contains_version;
    test_hello_returns_200; test_hello_returns_message;
    test_hello_contains_timestamp;
    test_greet_returns_200_with_valid_name;
    test_greet_returns_personalized_greeting;
    test_greet_handles_different_names;
    test_greet_returns_400_for_empty_name;
    test_greet_returns_400_for_whitespace_name;
    test_greet_returns_422_for_missing_name;
    test_greet_contains_timestamp;
    test_info_returns_200; test_info_contains_name; test_info_contains_version;
    test_info_contains_endpoints;
    test_openapi_json_accessible; test_docs_accessible;
    test_404_for_nonexistent_endpoint; test_405_for_wrong_method ]
  ++ map test_greet_with_multiple_names [ py "Alice"; py "Bob"; py "Charlie" ]
  ++ map test_greet_with_invalid_names [ py ""; py "   "; [9] ].

End TestMain.

(** * Properties *)

(** ** Stripping *)

Section Strip.

Lemma truthy_false (s : str) : truthy s = false ↔ s = [].
Proof. destruct s; simpl; split; congruence. Qed.

Lemma lstrip_nil (s : str) : lstrip s = [] ↔ forallb isspace s = true.
Proof.
  induction s as [|c s IH]; simpl; [done|].
  destruct (isspace c); simpl; [exact IH|]. split; congruence.
Qed.

(** What [lstrip] leaves starts with a character that is not a space. *)
Lemma lstrip_head (s : str) :
  match lstrip s with
  | [] => True
  | c :: _ => isspace c = false
  end.
Proof.
  induction s as [|c s IH]; simpl; [done|].
  destruct (isspace c) eqn:E; [exact IH | exact E].
Qed.

Lemma forallb_isspace_rev (s : str) :
  forallb isspace (rev s) = forallb isspace s.
Proof.
  induction s as [|c s IH]; simpl; [done|].
  rewrite forallb_app, IH. simpl. rewrite andb_true_r. apply andb_comm.
Qed.

Lemma rstrip_nil (s : str) : rstrip s = [] ↔ forallb isspace s = true.
Proof.
  unfold rstrip. rewrite <- forallb_isspace_rev, <- lstrip_nil.
  split; intros H.
  - apply (f_equal (@rev N)) in H. rewrite rev_involutive in H. exact H.
  - rewrite H. reflexivity.
Qed.

(** A string strips to nothing exactly when all of it is whitespace. *)
Lemma strip_nil (s : str) : strip s = [] ↔ forallb isspace s = true.
Proof.
  unfold strip. rewrite rstrip_nil, <- (lstrip_nil s).
  pose proof (lstrip_head s) as Hh.
  destruct (lstrip s) as [|c t]; simpl; [done|].
  rewrite Hh. simpl. split; congruence.
Qed.

(** The guard of [greet] is the strip test. *)
Lemma name_is_blank_strip (request : GreetingRequest) :
  name_is_blank request = bool_decide (strip (name request) = []).
Proof.
  unfold name_is_blank. destruct request as [s]; simpl.
  destruct s as [|c s]; [reflexivity|]. simpl (truthy (c :: s)). simpl negb.
  rewrite orb_false_l.
  destruct (strip (c :: s)) eqn:E.
  - rewrite bool_decide_eq_true_2 by done. reflexivity.
  - rewrite bool_decide_eq_false_2 by done. reflexivity.
Qed.

End Strip.

(** ** Routing *)

Section Routing.

Implicit Types (rs : list Route) (p m : str) (r : Route).

(** When no route accepts the path, the scan ends where it started. *)
Lemma scan_no_path rs p m (partial : option Route) :
  (∀ r, r ∈ rs → ¬ route_accepts r p) →
  scan rs p m partial =
    match partial with
    | Some r => (PARTIAL, Some r)
    | None => (NONE, None)
    end.
Proof.
  induction rs as [|r0 rs IH]; simpl; intros Hp; [done|].
  unfold matches. rewrite decide_False by (apply Hp, list_elem_of_here).
  apply IH. intros r Hr. apply Hp. by apply list_elem_of_further.
Qed.

(** Once a partial match is kept, accepting routes without the method do
    not change it. *)
Lemma scan_partial rs p m r :
  (∀ r', r' ∈ rs → route_accepts r' p → r' = r) → m ∉ route_methods r →
  scan rs p m (Some r) = (PARTIAL, Some r).
Proof.
  induction rs as [|r0 rs IH]; simpl; intros Honly Hm; [done|].
  assert (∀ r', r' ∈ rs → route_accepts r' p → r' = r) as Honly'.
  { intros r' Hr'. apply Honly. by apply list_elem_of_further. }
  unfold matches. destruct (decide (route_accepts r0 p)) as [Ha|Hna].
  - rewrite (Honly r0 (list_elem_of_here _ _) Ha).
    rewrite decide_False by done. by apply IH.
  - by apply IH.
Qed.

Lemma accepts_overlap r r' p :
  route_accepts r p → route_accepts r' p → routes_overlap r r'.
Proof.
  unfold route_accepts, routes_overlap. intros [->| ->] [H|H].
  - by left.
  - right; by left.
  - right; by right.
  - left. by apply app_inv_tail in H.
Qed.

(** With routes that do not overlap, the route that accepts the path
    decides alone. *)
Lemma scan_path rs p m r :
  unambiguous rs → r ∈ rs → route_accepts r p →
  scan rs p m None =
    if decide (m ∈ route_methods r) then (FULL, Some r) else (PARTIAL, Some r).
Proof.
  intros Hun Hin Hacc.
  assert (∀ r', r' ∈ rs → route_accepts r' p → r' = r) as Honly.
  { intros r' Hr' Ha'. apply Hun; [done..|]. by apply (accepts_overlap _ _ p). }
  clear Hun. induction rs as [|r0 rs IH]; simpl.
  - by apply elem_of_nil in Hin.
  - assert (∀ r', r' ∈ rs → route_accepts r' p → r' = r) as Honly'.
    { intros r' Hr'. apply Honly. by apply list_elem_of_further. }
    unfold matches. destruct (decide (route_accepts r0 p)) as [Ha|Hna].
    + rewrite (Honly r0 (list_elem_of_here _ _) Ha).
      destruct (decide (m ∈ route_methods r)); [done|].
      by apply scan_partial.
    + apply elem_of_cons in Hin as [->|Hin]; [done|]. by apply IH.
Qed.

Lemma any_route_matches_no_path rs p m :
  (∀ r, r ∈ rs → ¬ route_accepts r p) → any_route_matches rs p m = false.
Proof.
  induction rs as [|r0 rs IH]; simpl; intros Hp; [done|].
  unfold matches. rewrite decide_False by (apply Hp, list_elem_of_here).
  simpl. apply IH. intros r Hr. apply Hp. by apply list_elem_of_further.
Qed.

Lemma routes_NoDup : NoDup (map route_path routes).
Proof. apply (bool_decide_unpack _). vm_compute. exact I. Qed.

(** No two routes of the application accept a common path. *)
Lemma routes_unambiguous : unambiguous routes.
Proof.
  assert (Forall (λ r, Forall (λ r', routes_overlap r r' → r = r') routes) routes)
    as Hall.
  { unfold routes_overlap. apply (bool_decide_unpack _). vm_compute. exact I. }
  intros r r' Hr Hr'. rewrite Forall_forall in Hall.
  specialize (Hall r Hr). rewrite Forall_forall in Hall. by apply Hall.
Qed.

Lemma declared_in_routes r : r ∈ declared_routes → r ∈ routes.
Proof. intros H. unfold routes. apply elem_of_app. by right. Qed.

(** A request for a path that no route accepts, and whose slash variant no
    route accepts either, ends in the router's own 404. *)
Lemma app_not_found (req : Request) (w : World) :
  (∀ r, r ∈ routes → ¬ route_accepts r (path req)) →
  (∀ r, r ∈ routes → ¬ route_accepts r (redirect_path (path req))) →
  app req w = JSONResponse 404 (JDict [ (py "detail", JStr (py "Not Found")) ]).
Proof.
  intros Hp Hr. unfold app.
  rewrite (scan_no_path _ _ _ None Hp).
  rewrite (any_route_matches_no_path _ _ _ Hr).
  rewrite andb_false_r. reflexivity.
Qed.

(** A request for a path that a route accepts, with a method the route does
    not have, ends in the router's own 405. *)
Lemma app_method_not_allowed (req : Request) (w : World) r :
  r ∈ routes → route_accepts r (path req) → method req ∉ route_methods r →
  app req w =
    JSONResponse 405 (JDict [ (py "detail", JStr (py "Method Not Allowed")) ]).
Proof.
  intros Hin Hp Hm. unfold app.
  rewrite (scan_path routes (path req) (method req) r routes_unambiguous Hin Hp).
  rewrite decide_False by done. reflexivity.
Qed.

(** A request for a path that a route accepts, with one of its methods,
    runs the route's endpoint. *)
Lemma app_call (req : Request) (w : World) r :
  r ∈ routes → route_accepts r (path req) → method req ∈ route_methods r →
  app req w = call (endpoint r) req w.
Proof.
  intros Hin Hp Hm. unfold app.
  rewrite (scan_path routes (path req) (method req) r routes_unambiguous Hin Hp).
  rewrite decide_True by done. reflexivity.
Qed.

Lemma app_greet (b : option json) (w : World) :
  app (POST "/greet" b) w = call Greet (POST "/greet" b) w.
Proof.
  apply (app_call _ _ {| route_path := py "/greet"; route_methods := [py "POST"];
                         endpoint := Greet |});
    [apply (bool_decide_unpack _); vm_compute; exact I | by left |].
  apply (bool_decide_unpack _); vm_compute; exact I.
Qed.

End Routing.

(** ** Timestamps *)

Section Timestamps.

Lemma length_zfill (k : nat) (n : N) : length (zfill k n) = k.
Proof.
  revert n. induction k as [|k IH]; intros n; simpl; [done|].
  rewrite length_app, IH. simpl. lia.
Qed.

Lemma digit_value_digit (n : N) : digit_value (digit n) = Some (n mod 10).
Proof.
  unfold digit_value, digit.
  pose proof (N.mod_upper_bound n 10 ltac:(done)) as Hlt.
  generalize dependent (n mod 10). intros r Hlt.
  replace ((48 <=? 48 + r) && (48 + r <=? 57)) with true.
  - f_equal. lia.
  - symmetry. apply andb_true_intro. split; apply N.leb_le; lia.
Qed.

Lemma number_from_snoc (acc : N) (s : str) (c : N) :
  number_from acc (s ++ [c]) =
    a ← number_from acc s; v ← digit_value c; Some (a * 10 + v).
Proof.
  revert acc. induction s as [|c0 s IH]; intros acc; simpl.
  - by destruct (digit_value c).
  - destruct (digit_value c0); [apply IH | done].
Qed.

(** The digits of [zfill] read back as the number, up to the width. *)
Lemma number_from_zfill (k : nat) (acc n : N) :
  number_from acc (zfill k n) = Some (acc * 10 ^ N.of_nat k + n mod 10 ^ N.of_nat k).
Proof.
  revert n. induction k as [|k IH]; intros n.
  - simpl. rewrite N.mod_1_r. f_equal. lia.
  - cbn [zfill]. rewrite number_from_snoc, IH, digit_value_digit. simpl.
    f_equal. rewrite Nat2N.inj_succ, N.pow_succ_r'.
    rewrite (N.Div0.mod_mul_r n 10 (10 ^ N.of_nat k)).
    generalize ((n / 10) mod 10 ^ N.of_nat k) (n mod 10) (10 ^ N.of_nat k).
    intros a b P. lia.
Qed.

Lemma field_zfill (k : nat) (n : N) (rest : str) :
  k ≠ O → n < 10 ^ N.of_nat k →
  field k (zfill k n ++ rest) = Some (n, rest).
Proof.
  intros Hk Hn. unfold field.
  assert (take k (zfill k n ++ rest) = zfill k n) as ->.
  { rewrite take_app_length'; [done | by rewrite length_zfill]. }
  assert (drop k (zfill k n ++ rest) = rest) as ->.
  { rewrite drop_app_length'; [done | by rewrite length_zfill]. }
  rewrite length_zfill, Nat.eqb_refl.
  unfold number. destruct (zfill k n) eqn:Hz.
  - apply (f_equal length) in Hz. rewrite length_zfill in Hz. simpl in Hz. lia.
  - rewrite <- Hz, number_from_zfill. simpl.
    rewrite N.mod_small by exact Hn. reflexivity.
Qed.

Lemma expect_head (c : N) (rest : str) : expect c ([c] ++ rest) = Some rest.
Proof. simpl. by rewrite N.eqb_refl. Qed.

(** A timestamp of [isoformat] reads back as the instant it was made of. *)
Lemma fromisoformat_isoformat (d : datetime) :
  valid_datetime d = true → fromisoformat (isoformat d) = Some d.
Proof.
  intros Hvalid. pose proof Hvalid as Hv.
  destruct d as [y mo dy h mi se us]. unfold valid_datetime in Hv. simpl in Hv.
  repeat (apply andb_prop in Hv as [Hv ?]).
  repeat match goal with
         | H : (_ <=? _) = true |- _ => apply N.leb_le in H
         | H : (_ <? _) = true |- _ => apply N.ltb_lt in H
         end.
  assert (dy <= 31) as Hday.
  { etransitivity; [eassumption|]. unfold days_in_month.
    repeat case_match; lia. }
  unfold fromisoformat, isoformat. cbn [year month day hour minute second microsecond].
  change (py "-") with [45]. change (py "T") with [84].
  change (py ":") with [58]. change (py ".") with [46].
  rewrite field_zfill by (simpl; lia). cbn [mbind option_bind].
  rewrite expect_head. cbn [mbind option_bind].
  rewrite field_zfill by (simpl; lia). cbn [mbind option_bind].
  rewrite expect_head. cbn [mbind option_bind].
  rewrite field_zfill by (simpl; lia). cbn [mbind option_bind].
  rewrite expect_head. cbn [mbind option_bind].
  rewrite field_zfill by (simpl; lia). cbn [mbind option_bind].
  rewrite expect_head. cbn [mbind option_bind].
  rewrite field_zfill by (simpl; lia). cbn [mbind option_bind].
  rewrite expect_head. cbn [mbind option_bind].
  destruct (us =? 0) eqn:Hus.
  - apply N.eqb_eq in Hus. subst us.
    rewrite field_zfill by (simpl; lia). cbn [mbind option_bind].
    rewrite Hvalid. reflexivity.
  - rewrite field_zfill by (simpl; lia). cbn [mbind option_bind].
    change ([46] ++ zfill 6 us) with (46 :: zfill 6 us).
    cbn [mbind option_bind expect]. change (46 =? 46) with true.
    cbn [mbind option_bind].
    rewrite <- (app_nil_r (zfill 6 us)).
    rewrite field_zfill by (simpl; lia). cbn [mbind option_bind].
    rewrite Hvalid. reflexivity.
Qed.

End Timestamps.

(** ** The text of a number *)

Section Numbers.

Implicit Types (n acc : N) (fuel : nat).

(** [decimal_from] writes digits in front of what it is given, at least one
    when it has fuel. *)
Lemma decimal_from_digits fuel n (rest : str) :
  ∃ ds, decimal_from fuel n rest = ds ++ rest
        ∧ Forall (λ c, 48 ≤ c ≤ 57) ds
        ∧ (fuel ≠ O → ds ≠ []).
Proof.
  assert (48 ≤ digit n ≤ 57) as Hd.
  { unfold digit. pose proof (N.mod_upper_bound n 10 ltac:(done)) as Hlt.
    generalize dependent (n mod 10). intros r Hlt. lia. }
  revert n rest Hd. induction fuel as [|fuel IH]; intros n rest Hd; simpl.
  - exists []. split; [done|]. split; [constructor | done].
  - destruct (n <? 10).
    + exists [digit n]. split; [done|].
      split; [|done]. apply Forall_cons. split; [exact Hd | apply Forall_nil_2].
    + assert (48 ≤ digit (n / 10) ≤ 57) as Hd'.
      { unfold digit.
        pose proof (N.mod_upper_bound (n / 10) 10 ltac:(done)) as Hlt.
        generalize dependent ((n / 10) mod 10). intros r Hlt. lia. }
      destruct (IH (n / 10) (digit n :: rest) Hd') as (ds & -> & Hds & _).
      exists (ds ++ [digit n]). rewrite <- app_assoc.
      split; [done|]. split.
      * apply Forall_app. split; [done|].
        apply Forall_cons. split; [exact Hd | apply Forall_nil_2].
      * by destruct ds.
Qed.

(** With enough fuel the digits written are those of the number. *)
Lemma decimal_from_number fuel n (rest : str) :
  n < 10 ^ N.of_nat fuel →
  ∃ ds, decimal_from fuel n rest = ds ++ rest
        ∧ ∀ a, number_from a ds = Some (a * 10 ^ N.of_nat (length ds) + n).
Proof.
  revert n rest. induction fuel as [|fuel IH]; intros n rest Hn.
  - exists []. split; [done|]. intros a. simpl in *. f_equal. lia.
  - simpl decimal_from. destruct (N.ltb_spec n 10) as [Hlt|Hge].
    + exists [digit n]. split; [done|]. intros a.
      simpl. by rewrite digit_value_digit, N.mod_small by done.
    + rewrite Nat2N.inj_succ, N.pow_succ_r' in Hn.
      assert (n / 10 < 10 ^ N.of_nat fuel) as Hn'
        by (apply N.Div0.div_lt_upper_bound; lia).
      destruct (IH (n / 10) (digit n :: rest) Hn') as (ds & -> & Hds).
      exists (ds ++ [digit n]). rewrite <- app_assoc. split; [done|].
      intros a. rewrite number_from_snoc, Hds, digit_value_digit. simpl.
      f_equal. rewrite length_app, Nat.add_1_r, Nat2N.inj_succ, N.pow_succ_r'.
      pose proof (N.div_mod n 10 ltac:(done)) as Hdm.
      clear Hds Hn' IH Hn Hge.
      set (q := n / 10) in *. set (r := n mod 10) in *.
      set (P := 10 ^ N.of_nat (length ds)) in *.
      clearbody q r P. lia.
Qed.

(** [decimal] writes the number: its digits read back as the number. *)
Lemma decimal_reads_back n : number (decimal n) = Some n.
Proof.
  unfold decimal.
  assert (n < 10 ^ N.of_nat (N.to_nat (N.succ (N.log2 n)))) as Hn.
  { rewrite N2Nat.id.
    apply N.lt_le_trans with (2 ^ N.succ (N.log2 n)).
    - destruct n as [|p]; [done|]. apply N.log2_spec. lia.
    - apply N.pow_le_mono_l. lia. }
  destruct (decimal_from_number _ n [] Hn) as (ds & Hds & Hnum).
  destruct (decimal_from_digits (N.to_nat (N.succ (N.log2 n))) n [])
    as (ds' & Hds' & _ & Hne).
  rewrite Hds in Hds'. rewrite !app_nil_r in Hds'. subst ds'.
  rewrite Hds, app_nil_r.
  unfold number. destruct ds as [|c ds]; [destruct Hne; [lia | done]|].
  by rewrite Hnum.
Qed.



End Numbers.

(** ** Rendering *)

Section Rendering.

Implicit Types (s t : str) (w : World).

Lemma encodable_app s t : encodable (s ++ t) = encodable s && encodable t.
Proof. apply forallb_app. Qed.

Lemma digit_scalar (n : N) : is_scalar (digit n) = true.
Proof.
  unfold is_scalar, digit.
  pose proof (N.mod_upper_bound n 10 ltac:(done)) as Hlt.
  generalize dependent (n mod 10). intros r Hlt.
  apply orb_true_intro. left. apply N.ltb_lt. lia.
Qed.

Lemma zfill_encodable (k : nat) (n : N) : encodable (zfill k n) = true.
Proof.
  revert n. induction k as [|k IH]; intros n; simpl; [done|].
  rewrite encodable_app, IH. simpl. by rewrite digit_scalar.
Qed.

(** A timestamp can always be encoded. *)
Lemma isoformat_encodable (d : datetime) : encodable (isoformat d) = true.
Proof.
  unfold isoformat. rewrite !encodable_app, !zfill_encodable.
  destruct (microsecond d =? 0); [reflexivity|].
  by rewrite encodable_app, zfill_encodable.
Qed.

(** Whitespace can always be encoded. *)
Lemma isspace_scalar (c : N) : isspace c = true → is_scalar c = true.
Proof.
  unfold isspace, is_scalar. intros H.
  apply orb_true_intro. left. apply N.ltb_lt.
  repeat (apply orb_prop in H as [H|H]);
    repeat match goal with
           | H : _ && _ = true |- _ => apply andb_prop in H as [? ?]
           | H : (_ <=? _) = true |- _ => apply N.leb_le in H
           | H : (_ =? _) = true |- _ => apply N.eqb_eq in H
           end; lia.
Qed.

Lemma whitespace_encodable s : forallb isspace s = true → encodable s = true.
Proof.
  induction s as [|c s IH]; simpl; [done|]. intros H.
  apply andb_prop in H as [Hc Hs]. by rewrite (isspace_scalar c Hc), IH.
Qed.

(** The rendering of a greeting fails exactly on a name that cannot be
    encoded. *)
Lemma render_greeting s w :
  render 200 (GreetingResponse_json
                {| greeting := py "Hello, " ++ s ++ py "!";
                   greeting_timestamp := isoformat (clock w) |})
  = if encodable s then greeting_response s w else InternalServerError.
Proof.
  unfold render, GreetingResponse_json, greeting_response.
  cbn [greeting greeting_timestamp json_encodable forallb fst snd].
  rewrite isoformat_encodable, !encodable_app.
  change (encodable (py "greeting")) with true.
  change (encodable (py "timestamp")) with true.
  change (encodable (py "Hello, ")) with true.
  change (encodable (py "!")) with true.
  by destruct (encodable s).
Qed.

(** The rendering of the health status and of the service information
    fails exactly on an environment name that cannot be encoded. *)
Lemma render_health w :
  render 200 (HealthResponse_json (health_check w))
  = if encodable (configured_environment w)
    then JSONResponse 200 (HealthResponse_json (health_check w))
    else InternalServerError.
Proof.
  unfold render, HealthResponse_json.
  change (health_environment (health_check w)) with (configured_environment w).
  change (health_timestamp (health_check w)) with (isoformat (clock w)).
  change (health_status (health_check w)) with (py "healthy").
  change (health_version (health_check w)) with (py "1.0.0").
  cbn [json_encodable forallb fst snd].
  rewrite isoformat_encodable.
  change (encodable (py "status")) with true.
  change (encodable (py "healthy")) with true.
  change (encodable (py "timestamp")) with true.
  change (encodable (py "environment")) with true.
  change (encodable (py "version")) with true.
  change (encodable (py "1.0.0")) with true.
  by destruct (encodable (configured_environment w)).
Qed.

Lemma render_info w :
  render 200 (JDict (info w))
  = if encodable (configured_environment w)
    then JSONResponse 200 (JDict (info w))
    else InternalServerError.
Proof.
  unfold render.
  assert (json_encodable (JDict (info w)) = encodable (configured_environment w))
    as ->; [|done].
  change (info w) with
    [ (py "name", JStr (py "Hello World API"));
      (py "version", JStr (py "1.0.0"));
      (py "environment", JStr (configured_environment w));
      (py "endpoints", JList [
         endpoint_entry "/" "GET" "Root endpoint";
         endpoint_entry "/health" "GET" "Health check";
         endpoint_entry "/hello" "GET" "Simple hello";
         endpoint_entry "/greet" "POST" "Personalized greeting";
         endpoint_entry "/info" "GET" "API information" ]) ].
  generalize (configured_environment w). intros e.
  cbn [json_encodable forallb fst snd].
  destruct (encodable e); reflexivity.
Qed.

Lemma render_hello w :
  render 200 (HelloResponse_json (hello w))
  = JSONResponse 200 (HelloResponse_json (hello w)).
Proof.
  unfold render, HelloResponse_json.
  change (hello_timestamp (hello w)) with (isoformat (clock w)).
  change (hello_message (hello w)) with (py "Hello, World!").
  cbn [json_encodable forallb fst snd].
  rewrite isoformat_encodable. reflexivity.
Qed.

End Rendering.

(** ** The greeting endpoint *)

Section Greeting.

Implicit Types (s : str) (w : World) (request : GreetingRequest).

Lemma greet_blank request w :
  name_is_blank request = true →
  greet request w =
    Raise {| exc_status_code := 400; exc_detail := py "Name cannot be empty" |}.
Proof. intros H. unfold greet. rewrite H. reflexivity. Qed.

Lemma greet_not_blank request w :
  name_is_blank request = false →
  greet request w =
    Return {| greeting := py "Hello, " ++ name request ++ py "!";
              greeting_timestamp := isoformat (clock w) |}.
Proof. intros H. unfold greet. rewrite H. reflexivity. Qed.

(** The endpoint on a body that passes validation. *)
Lemma call_greet_valid (req : Request) w request :
  validate_GreetingRequest (body req) = inr request →
  call Greet req w =
    if name_is_blank request then blank_name_response
    else if encodable (name request) then greeting_response (name request) w
    else InternalServerError.
Proof.
  intros Hv. unfold call. rewrite Hv.
  destruct (name_is_blank request) eqn:Hb.
  - change (match greet request w with
            | Return r => render 200 (GreetingResponse_json r)
            | Raise e => http_exception_response e
            end = blank_name_response).
    rewrite (greet_blank _ _ Hb). reflexivity.
  - change (match greet request w with
            | Return r => render 200 (GreetingResponse_json r)
            | Raise e => http_exception_response e
            end = if encodable (name request)
                  then greeting_response (name request) w
                  else InternalServerError).
    rewrite (greet_not_blank _ _ Hb). apply render_greeting.
Qed.

(** The endpoint on a body that fails validation: the handler is not
    involved. *)
Lemma call_greet_invalid (req : Request) w loc :
  validate_GreetingRequest (body req) = inl loc →
  call Greet req w = RequestValidationError loc.
Proof. intros Hv. unfold call. rewrite Hv. reflexivity. Qed.

Lemma validate_name_member members s :
  dict_get (py "name") members = Some (JStr s) →
  validate_GreetingRequest (Some (JDict members)) = inr {| name := s |}.
Proof.
  intros H. unfold validate_GreetingRequest. cbn [model_input].
  rewrite H. reflexivity.
Qed.

(** What [POST /greet] answers to a body whose [name] is the string [s]. *)
Lemma post_greet_name members s w :
  dict_get (py "name") members = Some (JStr s) →
  app (POST "/greet" (Some (JDict members))) w =
    if bool_decide (strip s = []) then blank_name_response
    else if encodable s then greeting_response s w
    else InternalServerError.
Proof.
  intros H. rewrite app_greet.
  rewrite (call_greet_valid _ w {| name := s |}) by (by apply validate_name_member).
  rewrite name_is_blank_strip. reflexivity.
Qed.

Lemma name_body_member s :
  dict_get (py "name") [ (py "name", JStr s) ] = Some (JStr s).
Proof. reflexivity. Qed.


End Greeting.

(** C1, as stated, fails on a name that cannot be encoded: the name made
    of the lone surrogate [U+D800] is not blank after stripping, and the
    answer is a 500 without a greeting. *)
Lemma surrogate_name_is_500 :
  strip [0xD800] ≠ []
  ∧ status_code (app (POST "/greet" (name_body [0xD800])) example_world) = 500
  ∧ response_field "greeting" (app (POST "/greet" (name_body [0xD800])) example_world)
    = None.
Proof. split; [vm_compute; discriminate|]. split; reflexivity. Qed.

(** C1, amended.  For every string [s] that is not blank after stripping
    and that UTF-8 can encode (it holds no lone surrogate), [POST /greet]
    with the body [{"name": s}] returns 200 with the greeting
    ["Hello, " + s + "!"], where [s] is the name as it was sent: stripping
    serves the check only and is never applied to the output. *)
Theorem greet_nonblank_ok (s : str) (w : World) :
  strip s ≠ [] → encodable s = true →
  let response := app (POST "/greet" (name_body s)) w in
  status_code response = 200
  ∧ response_field "greeting" response = Some (JStr (py "Hello, " ++ s ++ py "!"))
  ∧ response = JSONResponse 200
      (GreetingResponse_json
         {| greeting := py "Hello, " ++ s ++ py "!";
            greeting_timestamp := isoformat (clock w) |}).
Proof.
  intros Hs He response. subst response. unfold name_body.
  rewrite (post_greet_name _ s w (name_body_member s)).
  rewrite bool_decide_eq_false_2 by exact Hs. rewrite He.
  repeat split.
Qed.

Lemma greet_nonblank_ok_witness :
  strip (py "  Ada Lovelace ") ≠ []
  ∧ response_field "greeting"
      (app (POST "/greet" (name_body (py "  Ada Lovelace "))) example_world)
    = Some (JStr (py "Hello,   Ada Lovelace !")).
Proof.
  split; [vm_compute; discriminate|].
  apply (greet_nonblank_ok (py "  Ada Lovelace ") example_world).
  - vm_compute; discriminate.
  - reflexivity.
Defined.







(** C8.  For every string name, the guard of [greet], "name is falsy or
    name.strip() is falsy", is the condition "name.strip() is empty": the
    first disjunct is redundant, and the handler written with the strip
    test alone rejects and accepts the same names with the same results. *)
Theorem guard_is_strip_empty (s : str) :
  name_is_blank {| name := s |} = name_strips_to_empty {| name := s |}
  ∧ (negb (truthy s) = true → negb (truthy (strip s)) = true)
  ∧ ∀ w, greet {| name := s |} w = greet_strip_only {| name := s |} w.
Proof.
  split; [apply name_is_blank_strip|]. split.
  - intros H. apply negb_true_iff, truthy_false in H. by subst s.
  - intros w. unfold greet, greet_strip_only, name_strips_to_empty.
    by rewrite name_is_blank_strip.
Qed.

(** C9.  Whenever [POST /greet] returns 200, the greeting of the response
    is ["Hello, " + name + "!"] for a name that is not empty after
    stripping: no successful response embeds an empty or all-whitespace
    name, the 400 branch being taken before a response is built. *)
Theorem greet_200_name_not_blank (b : option json) (w : World) :
  status_code (app (POST "/greet" b) w) = 200 →
  ∃ s, validate_GreetingRequest b = inr {| name := s |}
       ∧ strip s ≠ [] ∧ s ≠ [] ∧ forallb isspace s = false
       ∧ greet {| name := s |} w =
           Return {| greeting := py "Hello, " ++ s ++ py "!";
                     greeting_timestamp := isoformat (clock w) |}
       ∧ response_field "greeting" (app (POST "/greet" b) w)
         = Some (JStr (py "Hello, " ++ s ++ py "!")).
Proof.
  rewrite app_greet. intros Hok.
  destruct (validate_GreetingRequest b) as [loc|[s]] eqn:Hv.
  - rewrite (call_greet_invalid (POST "/greet" b) w loc Hv) in Hok. discriminate.
  - rewrite (call_greet_valid (POST "/greet" b) w _ Hv) in *.
    destruct (name_is_blank {| name := s |}) eqn:Hb; [discriminate|].
    cbn [name] in *.
    destruct (encodable s) eqn:He; [|discriminate].
    pose proof Hb as Hb'. rewrite name_is_blank_strip in Hb'.
    apply bool_decide_eq_false in Hb'. simpl in Hb'.
    exists s. repeat split; try done.
    + intros ->. by apply Hb'.
    + apply not_true_is_false. intros Hall. by apply Hb', strip_nil.
    + by apply greet_not_blank.
Qed.

Lemma greet_200_name_not_blank_witness :
  ∃ s, validate_GreetingRequest (name_body (py "Alice")) = inr {| name := s |}
       ∧ strip s ≠ [].
Proof.
  destruct (greet_200_name_not_blank (name_body (py "Alice")) example_world eq_refl)
    as (s & Hv & Hs & _).
  exists s. by split.
Defined.


(** ** The endpoints without input *)

(** A closed decidable fact, by evaluation. *)
Ltac by_evaluation := apply (bool_decide_unpack _); vm_compute; exact I.

(** The request goes to the route [r]. *)
Ltac routed_to r :=
  rewrite (app_call _ _ r) by (first [ by_evaluation | by left ]).

Section Endpoints.

Implicit Types (w : World) (b : option json).

Lemma app_root b w :
  app (GET "/" b) w = JSONResponse 200 (str_dict_json (root w)).
Proof.
  routed_to {| route_path := py "/"; route_methods := [py "GET"]; endpoint := Root |}.
  reflexivity.
Qed.

Lemma app_health b w :
  app (GET "/health" b) w =
    if encodable (configured_environment w)
    then JSONResponse 200 (HealthResponse_json (health_check w))
    else InternalServerError.
Proof.
  routed_to {| route_path := py "/health"; route_methods := [py "GET"];
               endpoint := HealthCheck |}.
  apply render_health.
Qed.

Lemma app_hello b w :
  app (GET "/hello" b) w = JSONResponse 200 (HelloResponse_json (hello w)).
Proof.
  routed_to {| route_path := py "/hello"; route_methods := [py "GET"];
               endpoint := Hello |}.
  apply render_hello.
Qed.

Lemma app_info b w :
  app (GET "/info" b) w =
    if encodable (configured_environment w)
    then JSONResponse 200 (JDict (info w))
    else InternalServerError.
Proof.
  routed_to {| route_path := py "/info"; route_methods := [py "GET"];
               endpoint := Info |}.
  apply render_info.
Qed.

Lemma health_check_unfold w :
  health_check w =
    {| health_status := py "healthy";
       health_timestamp := isoformat (clock w);
       health_environment := getenv (py "ENVIRONMENT") (py "development") w;
       health_version := py "1.0.0" |}.
Proof. reflexivity. Qed.

Lemma hello_unfold w :
  hello w = {| hello_message := py "Hello, World!";
               hello_timestamp := isoformat (clock w) |}.
Proof. reflexivity. Qed.

Lemma info_unfold w :
  info w =
    [ (py "name", JStr (py "Hello World API"));
      (py "version", JStr (py "1.0.0"));
      (py "environment", JStr (getenv (py "ENVIRONMENT") (py "development") w));
      (py "endpoints", JList [
         endpoint_entry "/" "GET" "Root endpoint";
         endpoint_entry "/health" "GET" "Health check";
         endpoint_entry "/hello" "GET" "Simple hello";
         endpoint_entry "/greet" "POST" "Personalized greeting";
         endpoint_entry "/info" "GET" "API information" ]) ].
Proof. reflexivity. Qed.

(** [getenv] on an environment where the variable is set, and on one
    where it is not. *)
Lemma getenv_set (key default v : str) (e : gmap str str) (c : datetime) :
  getenv key default {| environ := <[key := v]> e; clock := c |} = v.
Proof. unfold getenv. simpl. by rewrite lookup_insert_eq. Qed.

Lemma getenv_unset (key default : str) (e : gmap str str) (c : datetime) :
  getenv key default {| environ := delete key e; clock := c |} = default.
Proof. unfold getenv. simpl. by rewrite lookup_delete_eq. Qed.

End Endpoints.

(** C5, as stated, fails on a value that cannot be encoded: with the
    variable set to the byte [0xFF], which the process reads as the lone
    surrogate [U+DCFF], both endpoints answer 500 and return no
    [environment] field. *)
Lemma undecodable_environment_is_500 :
  environ undecodable_world !! py "ENVIRONMENT" = Some [0xDCFF]
  ∧ status_code (app (GET "/health" None) undecodable_world) = 500
  ∧ response_field "environment" (app (GET "/health" None) undecodable_world) = None
  ∧ status_code (app (GET "/info" None) undecodable_world) = 500
  ∧ response_field "environment" (app (GET "/info" None) undecodable_world) = None.
Proof. repeat split; by vm_compute. Qed.

(** C5, amended.  For every value of the [ENVIRONMENT] variable, both
    handlers put that value in their [environment] field when the variable
    is set, and the literal "development" when it is not.  When UTF-8 can
    encode the value, that is the [environment] field returned by
    [GET /health] and by [GET /info]; when it cannot, both answer 500.  The
    two endpoints agree under the same configuration. *)
Theorem environment_field (w : World) (b b' : option json) :
  let configured :=
    match environ w !! py "ENVIRONMENT" with
    | Some v => v
    | None => py "development"
    end in
  health_environment (health_check w) = configured
  ∧ dict_get (py "environment") (info w) = Some (JStr configured)
  ∧ (encodable configured = true →
     response_field "environment" (app (GET "/health" b) w) = Some (JStr configured)
     ∧ response_field "environment" (app (GET "/info" b') w) = Some (JStr configured))
  ∧ (encodable configured = false →
     status_code (app (GET "/health" b) w) = 500
     ∧ status_code (app (GET "/info" b') w) = 500)
  ∧ response_field "environment" (app (GET "/health" b) w)
    = response_field "environment" (app (GET "/info" b') w).
Proof.
  intros configured. rewrite app_health, app_info.
  change (configured_environment w) with configured.
  split; [reflexivity|]. split; [reflexivity|].
  destruct (encodable configured); repeat split; done.
Qed.

Lemma environment_field_witness :
  response_field "environment" (app (GET "/health" None) example_world)
  = Some (JStr (py "development")).
Proof.
  destruct (environment_field example_world None None) as (_ & _ & H & _).
  apply H. reflexivity.
Defined.

(** C6, as stated, fails where the service information cannot be
    rendered: with [ENVIRONMENT] set to a value that cannot be encoded,
    [GET /info] answers 500 and returns no [endpoints] list. *)
Lemma undecodable_environment_no_endpoints :
  status_code (app (GET "/info" None) undecodable_world) = 500
  ∧ response_field "endpoints" (app (GET "/info" None) undecodable_world) = None.
Proof. split; by vm_compute. Qed.

(** C6, amended.  The [endpoints] list that [info] builds, and that
    [GET /info] returns whenever the [ENVIRONMENT] value can be encoded (it
    returns no other), has exactly five entries, each with the fields
    [path], [method] and [description], in the order ("/", GET),
    ("/health", GET), ("/hello", GET), ("/greet", POST), ("/info", GET):
    the routes the module declares, in their order. *)
Theorem info_endpoints (w : World) (b : option json) :
  ∃ entries,
    dict_get (py "endpoints") (info w) = Some (JList entries)
    ∧ (encodable (configured_environment w) = true →
       response_field "endpoints" (app (GET "/info" b) w) = Some (JList entries))
    ∧ (∀ j, response_field "endpoints" (app (GET "/info" b) w) = Some j →
            j = JList entries)
    ∧ length entries = 5%nat
    ∧ map entry_route entries =
        [ Some (py "/", py "GET"); Some (py "/health", py "GET");
          Some (py "/hello", py "GET"); Some (py "/greet", py "POST");
          Some (py "/info", py "GET") ]
    ∧ Forall (λ e, ∃ p m d,
                e = JDict [ (py "path", JStr p); (py "method", JStr m);
                            (py "description", JStr d) ]) entries
    ∧ map entry_route entries =
        flat_map (λ r, map (λ m, Some (route_path r, m)) (route_methods r))
          declared_routes.
Proof.
  rewrite app_info, info_unfold. eexists. split; [reflexivity|].
  split; [by intros ->|]. split.
  { intros j. destruct (encodable (configured_environment w)); [|discriminate].
    by intros [= <-]. }
  split; [reflexivity|]. split; [reflexivity|]. split; [|reflexivity].
  repeat constructor; unfold endpoint_entry; eauto.
Qed.

Lemma info_endpoints_witness :
  ∃ entries,
    response_field "endpoints" (app (GET "/info" None) example_world)
    = Some (JList entries) ∧ length entries = 5%nat.
Proof.
  destruct (info_endpoints example_world None)
    as (entries & _ & Hr & _ & Hlen & _).
  exists entries. split; [by apply Hr | exact Hlen].
Defined.

(** C2, as stated, fails on [GET /info]: its response has no [timestamp]
    field. *)
Lemma info_has_no_timestamp :
  status_code (app (GET "/info" None) example_world) = 200
  ∧ response_field "timestamp" (app (GET "/info" None) example_world) = None.
Proof. split; reflexivity. Qed.

(** It also fails on a [GET /health] that cannot be rendered: the 500 has
    no [timestamp] either. *)
Lemma failed_health_has_no_timestamp :
  status_code (app (GET "/health" None) undecodable_world) = 500
  ∧ response_field "timestamp" (app (GET "/health" None) undecodable_world) = None.
Proof. split; by vm_compute. Qed.

(** C2, amended.  Every response of [GET /hello], and every successful
    response of [GET /health] and of [POST /greet], includes a [timestamp]
    field holding a string, the ISO-8601 form of the clock reading taken
    when the response is built, which reads back as that instant; the
    response of [GET /info] carries no [timestamp] field. *)
Theorem timestamp_fields (w : World) (b : option json) :
  valid_datetime (clock w) = true →
  let now := isoformat (clock w) in
  fromisoformat now = Some (clock w)
  ∧ (status_code (app (GET "/health" b) w) = 200 →
     response_field "timestamp" (app (GET "/health" b) w) = Some (JStr now))
  ∧ response_field "timestamp" (app (GET "/hello" b) w) = Some (JStr now)
  ∧ (status_code (app (POST "/greet" b) w) = 200 →
     response_field "timestamp" (app (POST "/greet" b) w) = Some (JStr now))
  ∧ response_field "timestamp" (app (GET "/info" b) w) = None.
Proof.
  intros Hvalid now. subst now.
  split; [by apply fromisoformat_isoformat|].
  rewrite app_health, app_hello, app_info, health_check_unfold, hello_unfold,
    info_unfold.
  split; [by destruct (encodable (configured_environment w))|].
  split; [reflexivity|].
  split; [|by destruct (encodable (configured_environment w))].
  rewrite app_greet.
  destruct (validate_GreetingRequest b) as [loc|request] eqn:Hv.
  - rewrite (call_greet_invalid (POST "/greet" b) w loc Hv). discriminate.
  - rewrite (call_greet_valid (POST "/greet" b) w _ Hv).
    destruct (name_is_blank request); [discriminate|].
    by destruct (encodable (name request)).
Qed.

Lemma timestamp_fields_witness :
  response_field "timestamp" (app (GET "/health" None) example_world)
  = Some (JStr (py "2024-02-29T07:05:00.001234")).
Proof.
  apply (timestamp_fields example_world None); reflexivity.
Defined.

(** ** Not found, method not allowed *)

(** C7, as stated, fails on the documentation page: [/docs] is none of the
    five declared routes, and the router answers 200 there, as the tests of
    the repository expect. *)
Lemma docs_is_not_404 :
  (path (GET "/docs" None) ∉ map route_path declared_routes)
  ∧ status_code (app (GET "/docs" None) example_world) = 200.
Proof. split; [by_evaluation | reflexivity]. Qed.

(** A declared path with a trailing slash is answered with a redirect. *)
Lemma trailing_slash_redirects :
  app (GET "/hello/" None) example_world = RedirectResponse (py "/hello").
Proof. reflexivity. Qed.

(** A declared path followed by one newline is accepted by the pattern of
    its route, and served. *)
Lemma trailing_newline_is_served :
  status_code
    (app {| method := py "GET"; path := py "/hello" ++ [10]; body := None |}
       example_world) = 200.
Proof. reflexivity. Qed.

(** C7, amended.  For every request whose path is accepted by none of the
    nine routes (the five declared ones and the four documentation routes
    of the framework, [/openapi.json], [/docs], [/docs/oauth2-redirect] and
    [/redoc]; a route accepts its path, and its path followed by one
    newline) and whose slash variant is accepted by none of them either,
    the router returns 404; for every request whose path is accepted by a
    declared route and whose method is not declared for that route, the
    router returns 405.  Both answers are the router's own: the same for
    every body and in every world, no handler being run. *)
Theorem router_404_405 (req : Request) (w : World) :
  ((∀ r, r ∈ documentation_routes ++ declared_routes →
         ¬ route_accepts r (path req)) →
   (∀ r, r ∈ documentation_routes ++ declared_routes →
         ¬ route_accepts r (redirect_path (path req))) →
   status_code (app req w) = 404
   ∧ app req w = JSONResponse 404 (JDict [ (py "detail", JStr (py "Not Found")) ]))
  ∧ (∀ r, r ∈ declared_routes → route_accepts r (path req) →
          method req ∉ route_methods r →
     status_code (app req w) = 405
     ∧ app req w =
         JSONResponse 405 (JDict [ (py "detail", JStr (py "Method Not Allowed")) ])).
Proof.
  split.
  - intros Hp Hr. by rewrite (app_not_found req w Hp Hr).
  - intros r Hin Hp Hm.
    by rewrite (app_method_not_allowed req w r (declared_in_routes r Hin) Hp Hm).
Qed.

Lemma router_404_405_witness :
  status_code (app (GET "/nonexistent" None) example_world) = 404
  ∧ status_code (app (POST "/hello" None) example_world) = 405.
Proof.
  split.
  - apply (router_404_405 (GET "/nonexistent" None) example_world);
      apply Forall_forall; by_evaluation.
  - apply (proj2 (router_404_405 (POST "/hello" None) example_world)
             {| route_path := py "/hello"; route_methods := [py "GET"];
                endpoint := Hello |});
      [by_evaluation | by left | by_evaluation].
Defined.

(** ** Determinism *)

(** C10.  With the [ENVIRONMENT] value and the clock reading as fixed
    inputs, every handler is deterministic: in two worlds that agree on
    these two, whatever else they hold, [root], [health_check], [hello],
    [greet] and [info] return the same results on the same inputs, and so
    does the whole application. *)
Theorem handlers_deterministic (w1 w2 : World) :
  environ w1 !! py "ENVIRONMENT" = environ w2 !! py "ENVIRONMENT" →
  clock w1 = clock w2 →
  root w1 = root w2
  ∧ health_check w1 = health_check w2
  ∧ hello w1 = hello w2
  ∧ (∀ request, greet request w1 = greet request w2)
  ∧ info w1 = info w2
  ∧ (∀ req, app req w1 = app req w2).
Proof.
  intros Henv Hclock.
  assert (∀ default, getenv (py "ENVIRONMENT") default w1
                     = getenv (py "ENVIRONMENT") default w2) as Hgetenv.
  { intros default. unfold getenv. by rewrite Henv. }
  assert (health_check w1 = health_check w2) as Hhealth.
  { by rewrite !health_check_unfold, Hgetenv, Hclock. }
  assert (hello w1 = hello w2) as Hhello.
  { by rewrite !hello_unfold, Hclock. }
  assert (∀ request, greet request w1 = greet request w2) as Hgreet.
  { intros request. destruct (name_is_blank request) eqn:Hb.
    - by rewrite !greet_blank.
    - by rewrite !greet_not_blank, Hclock. }
  assert (info w1 = info w2) as Hinfo.
  { by rewrite !info_unfold, Hgetenv. }
  repeat split; try done.
  intros req. unfold app.
  assert (∀ e, call e req w1 = call e req w2) as Hcall; [|
    destruct (scan routes (path req) (method req) None) as [[| |] [r|]];
    solve [ done | by case_match ] ].
  intros e. destruct e; try done; unfold call.
  - change (render 200 (HealthResponse_json (health_check w1))
            = render 200 (HealthResponse_json (health_check w2))).
    by rewrite Hhealth.
  - change (render 200 (HelloResponse_json (hello w1))
            = render 200 (HelloResponse_json (hello w2))).
    by rewrite Hhello.
  - destruct (validate_GreetingRequest (body req)) as [loc|request]; [done|].
    change (match greet request w1 with
            | Return r => render 200 (GreetingResponse_json r)
            | Raise e => http_exception_response e
            end
            = match greet request w2 with
              | Return r => render 200 (GreetingResponse_json r)
              | Raise e => http_exception_response e
              end).
    by rewrite Hgreet.
  - change (render 200 (JDict (info w1)) = render 200 (JDict (info w2))).
    by rewrite Hinfo.
Qed.

Lemma handlers_deterministic_witness :
  health_check {| environ := {[ py "ENVIRONMENT" := py "staging"; py "HOME" := py "/root" ]};
                  clock := example_clock |}
  = health_check {| environ := {[ py "ENVIRONMENT" := py "staging" ]};
                    clock := example_clock |}.
Proof.
  apply (handlers_deterministic
           {| environ := {[ py "ENVIRONMENT" := py "staging"; py "HOME" := py "/root" ]};
              clock := example_clock |}
           {| environ := {[ py "ENVIRONMENT" := py "staging" ]};
              clock := example_clock |});
    [vm_compute; reflexivity | reflexivity].
Defined.


(** ** The scenarios of the test suite *)

Section Scenarios.

Let w := example_world.

Example scenario_root :
  app (GET "/" None) w =
    JSONResponse 200
      (JDict [ (py "message", JStr (py "Welcome to Hello World API"));
               (py "docs", JStr (py "/docs"));
               (py "health", JStr (py "/health")) ]).
Proof. reflexivity. Qed.

Example scenario_health :
  app (GET "/health" None) w =
    JSONResponse 200
      (JDict [ (py "status", JStr (py "healthy"));
               (py "timestamp", JStr (py "2024-02-29T07:05:00.001234"));
               (py "environment", JStr (py "development"));
               (py "version", JStr (py "1.0.0")) ]).
Proof. reflexivity. Qed.

Example scenario_hello_returns_message :
  response_field "message" (app (GET "/hello" None) w) = Some (JStr (py "Hello, World!")).
Proof. reflexivity. Qed.

Example scenario_greet_handles_different_names :
  map (λ n, response_field "greeting" (app (POST "/greet" (name_body (py n))) w))
      [ "Alice"; "Bob"; "Charlie"; "Diana" ]%string
  = map (λ g, Some (JStr (py g)))
      [ "Hello, Alice!"; "Hello, Bob!"; "Hello, Charlie!"; "Hello, Diana!" ]%string.
Proof. reflexivity. Qed.

Example scenario_greet_with_invalid_names :
  map (λ n, status_code (app (POST "/greet" (name_body n)) w))
      [ py ""; py "   "; [9]; [10] ]
  = [ 400; 400; 400; 400 ].
Proof. reflexivity. Qed.

(** The whitespace of [strip] is wider than space, tab and newline: a
    carriage return, a form feed or a no-break space alone is a blank name
    as well. *)
Example other_whitespace_names :
  map (λ n, status_code (app (POST "/greet" (name_body n)) w))
      [ [0x0D]; [0x0C]; [0xA0]; [0x20; 0x3000; 0x1F] ]
  = [ 400; 400; 400; 400 ].
Proof. reflexivity. Qed.

Example scenario_greet_returns_422_for_missing_name :
  status_code (app (POST "/greet" (Some (JDict []))) w) = 422.
Proof. reflexivity. Qed.

Example scenario_openapi_json_accessible :
  status_code (app (GET "/openapi.json" None) w) = 200.
Proof. reflexivity. Qed.

Example scenario_docs_accessible :
  status_code (app (GET "/docs" None) w) = 200.
Proof. reflexivity. Qed.

Example scenario_404_for_nonexistent_endpoint :
  status_code (app (GET "/nonexistent" None) w) = 404.
Proof. reflexivity. Qed.

Example scenario_405_for_wrong_method :
  status_code (app (POST "/hello" None) w) = 405.
Proof. reflexivity. Qed.

End Scenarios.


(** * Further properties of the handlers *)

(** ** More on the greeting endpoint *)

Section GreetingMore.

Implicit Types (s l r : str) (w : World) (request : GreetingRequest).

(** Whitespace around a name does not change whether it strips to
    nothing. *)
Lemma strip_padded_nil l s r :
  forallb isspace l = true → forallb isspace r = true →
  strip (l ++ s ++ r) = [] ↔ strip s = [].
Proof.
  intros Hl Hr. rewrite !strip_nil, !forallb_app, Hl, Hr.
  by rewrite andb_true_r.
Qed.

(** Whitespace around a name does not change whether it can be
    encoded. *)
Lemma encodable_padded l s r :
  forallb isspace l = true → forallb isspace r = true →
  encodable (l ++ s ++ r) = encodable s.
Proof.
  intros Hl Hr.
  rewrite !encodable_app, (whitespace_encodable l Hl), (whitespace_encodable r Hr).
  by rewrite andb_true_r.
Qed.

(** The answer of [POST /greet] on any body. *)
Lemma post_greet_any (b : option json) w :
  app (POST "/greet" b) w =
    match validate_GreetingRequest b with
    | inl loc => RequestValidationError loc
    | inr request =>
        if bool_decide (strip (name request) = []) then blank_name_response
        else if encodable (name request) then greeting_response (name request) w
        else InternalServerError
    end.
Proof.
  rewrite app_greet.
  destruct (validate_GreetingRequest b) as [loc|request] eqn:Hv.
  - by apply call_greet_invalid.
  - rewrite (call_greet_valid (POST "/greet" b) w request Hv).
    by rewrite name_is_blank_strip.
Qed.

End GreetingMore.

(** X1.  Whitespace around a name never changes what [POST /greet] makes of
    it: a name padded on both sides with whitespace gets the status of the
    bare name, and when it is answered 200 the greeting carries the
    padding. *)
Theorem padding_keeps_status (l s r : str) (w : World) :
  forallb isspace l = true → forallb isspace r = true →
  status_code (app (POST "/greet" (name_body (l ++ s ++ r))) w)
  = status_code (app (POST "/greet" (name_body s)) w)
  ∧ (status_code (app (POST "/greet" (name_body s)) w) = 200 →
     response_field "greeting" (app (POST "/greet" (name_body (l ++ s ++ r))) w)
     = Some (JStr (py "Hello, " ++ (l ++ s ++ r) ++ py "!"))).
Proof.
  intros Hl Hr. unfold name_body.
  rewrite (post_greet_name _ _ w (name_body_member (l ++ s ++ r))).
  rewrite (post_greet_name _ _ w (name_body_member s)).
  pose proof (strip_padded_nil l s r Hl Hr) as Hpad.
  rewrite (encodable_padded l s r Hl Hr).
  destruct (decide (strip s = [])) as [He|Hne].
  - rewrite !bool_decide_eq_true_2; [| done | by apply Hpad]. done.
  - rewrite !bool_decide_eq_false_2; [| done | by rewrite Hpad].
    by destruct (encodable s).
Qed.

Lemma padding_keeps_status_witness :
  status_code (app (POST "/greet" (name_body ([32; 9] ++ py "Bob" ++ [10]))) example_world)
  = status_code (app (POST "/greet" (name_body (py "Bob"))) example_world).
Proof.
  apply (padding_keeps_status [32; 9] (py "Bob") [10] example_world); reflexivity.
Defined.

(** X2.  The name can be read back from a greeting: the greeting is eight
    characters longer than the name, starts with "Hello, ", and its slice
    [[7:-1]] is the name as it was sent.  So two requests that are greeted
    alike carried the same name. *)
Theorem greeting_reads_back (request : GreetingRequest) (w : World) (g : GreetingResponse) :
  greet request w = Return g →
  length (greeting g) = (length (name request) + 8)%nat
  ∧ take 7 (greeting g) = py "Hello, "
  ∧ take (length (greeting g) - 8) (drop 7 (greeting g)) = name request
  ∧ ∀ request' w' g',
      greet request' w' = Return g' → greeting g' = greeting g → request' = request.
Proof.
  assert (∀ rq w0 g0, greet rq w0 = Return g0 →
            greeting g0 = py "Hello, " ++ name rq ++ py "!") as Hform.
  { intros rq w0 g0 H. destruct (name_is_blank rq) eqn:Hb.
    - rewrite (greet_blank _ _ Hb) in H. discriminate.
    - rewrite (greet_not_blank _ _ Hb) in H. by injection H as <-. }
  intros Hg. pose proof (Hform _ _ _ Hg) as Hgr.
  assert (length (greeting g) = (length (name request) + 8)%nat) as Hlen.
  { rewrite Hgr, !length_app. simpl. lia. }
  split; [exact Hlen|]. split; [by rewrite Hgr|]. split.
  - rewrite Hlen, Hgr. change (drop 7 (py "Hello, " ++ name request ++ py "!"))
      with (name request ++ py "!").
    replace (length (name request) + 8 - 8)%nat with (length (name request)) by lia.
    by rewrite take_app_length.
  - intros [s'] w' g' Hg' Heq. destruct request as [s]. cbn [name] in *.
    apply Hform in Hg'. cbn [name] in Hg'. rewrite Hg', Hgr in Heq.
    apply app_inv_head, app_inv_tail in Heq. by subst.
Qed.

Lemma greeting_reads_back_witness :
  take 7 (py "Hello, Ada!") = py "Hello, ".
Proof.
  apply (greeting_reads_back {| name := py "Ada" |} example_world
           {| greeting := py "Hello, Ada!";
              greeting_timestamp := isoformat example_clock |} eq_refl).
Defined.


(** ** The application on an arbitrary request *)

Section Dispatch.

Implicit Types (req : Request) (w : World) (r : Route).

(** A request for a path that a route accepts: the route's endpoint, or
    405. *)
Lemma app_on_route req w r :
  r ∈ routes → route_accepts r (path req) →
  app req w =
    if decide (method req ∈ route_methods r) then call (endpoint r) req w
    else JSONResponse 405 (JDict [ (py "detail", JStr (py "Method Not Allowed")) ]).
Proof.
  intros Hin Hp. destruct (decide (method req ∈ route_methods r)) as [Hm|Hm].
  - by apply (app_call req w r).
  - by apply (app_method_not_allowed req w r).
Qed.

(** A request for a path no route accepts: a redirect or 404, by the
    path. *)
Lemma app_off_route req w :
  (∀ r, r ∈ routes → ¬ route_accepts r (path req)) →
  app req w =
    if negb (bool_decide (path req = py "/"))
       && any_route_matches routes (redirect_path (path req)) (method req)
    then RedirectResponse (redirect_path (path req))
    else JSONResponse 404 (JDict [ (py "detail", JStr (py "Not Found")) ]).
Proof.
  intros Hp. unfold app. rewrite (scan_no_path _ _ _ None Hp).
  by case_match.
Qed.

(** Some route accepts the path of the request, or none does. *)
Lemma route_of_path req :
  (∃ r, r ∈ routes ∧ route_accepts r (path req))
  ∨ (∀ r, r ∈ routes → ¬ route_accepts r (path req)).
Proof.
  destruct (decide (Exists (λ r, route_accepts r (path req)) routes)) as [Hex|Hno].
  - left. by apply Exists_exists in Hex.
  - right. intros r Hr Ha. apply Hno, Exists_exists. eauto.
Qed.

(** Whether some route matches does not depend on the method. *)
Lemma any_route_matches_method (rs : list Route) (p m m' : str) :
  any_route_matches rs p m = any_route_matches rs p m'.
Proof.
  induction rs as [|r rs IH]; simpl; [done|]. rewrite IH. f_equal.
  unfold matches. by repeat case_match.
Qed.

(** The only route to [greet] is [POST /greet]. *)
Lemma greet_route_only r :
  r ∈ routes → endpoint r = Greet →
  route_path r = py "/greet" ∧ route_methods r = [py "POST"].
Proof.
  intros Hin He.
  assert (Forall (λ r, endpoint r = Greet →
                       route_path r = py "/greet" ∧ route_methods r = [py "POST"])
                 routes) as Hall by by_evaluation.
  rewrite Forall_forall in Hall. by apply Hall.
Qed.

(** The endpoints other than [greet] do not look at the request, and
    answer 200 unless what they return cannot be rendered. *)
Lemma call_other (e : Endpoint) req req' w :
  e ≠ Greet →
  (status_code (call e req w) = 200 ∨ call e req w = InternalServerError)
  ∧ call e req w = call e req' w.
Proof.
  intros He. split; [|by destruct e].
  destruct e; try (by left); try done.
  - change (call HealthCheck req w)
      with (render 200 (HealthResponse_json (health_check w))).
    rewrite render_health. destruct (encodable _); [by left | by right].
  - change (call Hello req w) with (render 200 (HelloResponse_json (hello w))).
    rewrite render_hello. by left.
  - change (call Info req w) with (render 200 (JDict (info w))).
    rewrite render_info. destruct (encodable _); [by left | by right].
Qed.

(** What [greet] answers once its route is chosen. *)
Lemma call_greet_cases req w :
  (∃ loc, call Greet req w = RequestValidationError loc)
  ∨ call Greet req w = blank_name_response
  ∨ (∃ s, call Greet req w = greeting_response s w)
  ∨ call Greet req w = InternalServerError.
Proof.
  destruct (validate_GreetingRequest (body req)) as [loc|request] eqn:Hv.
  - left. exists loc. by apply call_greet_invalid.
  - right. rewrite (call_greet_valid req w request Hv).
    destruct (name_is_blank request); [by left|]. right.
    destruct (encodable (name request)); [left; by eexists | by right].
Qed.

End Dispatch.

(** X4.  Only [POST /greet] can fail with 400 or 422: a request answered
    with one of these statuses has the method [POST] and a path that the
    route of [greet] accepts, which is [/greet], or [/greet] followed by one
    newline. *)
Theorem client_errors_only_from_greet (req : Request) (w : World) :
  status_code (app req w) = 400 ∨ status_code (app req w) = 422 →
  (path req = py "/greet" ∨ path req = py "/greet" ++ [10])
  ∧ method req = py "POST".
Proof.
  intros Hst.
  destruct (route_of_path req) as [(r & Hin & Hp)|Hout].
  - rewrite (app_on_route req w r Hin Hp) in Hst.
    destruct (decide (method req ∈ route_methods r)) as [Hm|Hm].
    + destruct (decide (endpoint r = Greet)) as [He|He].
      * destruct (greet_route_only r Hin He) as [Hpath Hmeth].
        rewrite Hmeth in Hm. apply list_elem_of_singleton in Hm.
        unfold route_accepts in Hp. rewrite Hpath in Hp. by split.
      * destruct (call_other (endpoint r) req req w He) as [[H200|Hise] _].
        -- rewrite H200 in Hst. by destruct Hst.
        -- rewrite Hise in Hst. by destruct Hst.
    + by destruct Hst.
  - rewrite (app_off_route req w Hout) in Hst.
    case_match; by destruct Hst.
Qed.

Lemma client_errors_only_from_greet_witness :
  (path (POST "/greet" (name_body (py " "))) = py "/greet"
   ∨ path (POST "/greet" (name_body (py " "))) = py "/greet" ++ [10])
  ∧ method (POST "/greet" (name_body (py " "))) = py "POST".
Proof.
  apply (client_errors_only_from_greet (POST "/greet" (name_body (py " ")))
           example_world).
  left. reflexivity.
Defined.

(** X5.  No handler but [greet] takes the request: for every request that
    the router does not send to [greet] (its method is not [POST], or its
    path is neither [/greet] nor [/greet] followed by one newline), the
    answer is the same whatever the body. *)
Theorem body_ignored_outside_greet (req : Request) (b : option json) (w : World) :
  ¬ ((path req = py "/greet" ∨ path req = py "/greet" ++ [10])
     ∧ method req = py "POST") →
  app {| method := method req; path := path req; body := b |} w = app req w.
Proof.
  intros Hng. set (req' := {| method := method req; path := path req; body := b |}).
  destruct (route_of_path req) as [(r & Hin & Hp)|Hout].
  - rewrite (app_on_route req w r Hin Hp), (app_on_route req' w r Hin Hp).
    cbn [method req'].
    destruct (decide (method req ∈ route_methods r)) as [Hm|Hm]; [|done].
    destruct (decide (endpoint r = Greet)) as [He|He].
    + destruct (greet_route_only r Hin He) as [Hpath Hmeth].
      rewrite Hmeth in Hm. apply list_elem_of_singleton in Hm.
      unfold route_accepts in Hp. rewrite Hpath in Hp. by destruct Hng.
    + by destruct (call_other (endpoint r) req' req w He) as [_ ->].
  - by rewrite (app_off_route req w Hout), (app_off_route req' w Hout).
Qed.

Lemma body_ignored_outside_greet_witness :
  app (GET "/health" (name_body (py "Eve"))) example_world
  = app (GET "/health" None) example_world.
Proof.
  apply (body_ignored_outside_greet (GET "/health" None) (name_body (py "Eve"))
           example_world).
  intros [_ Hm]. discriminate Hm.
Defined.

(** X6.  The application answers with one of seven statuses, 200, 307, 400,
    404, 405, 422 and 500, and the two errors of the router have one fixed
    body each: [{"detail": "Not Found"}] for 404 and
    [{"detail": "Method Not Allowed"}] for 405. *)
Theorem statuses_and_error_bodies (req : Request) (w : World) :
  let response := app req w in
  status_code response ∈ [200; 307; 400; 404; 405; 422; 500]
  ∧ match status_code response with
    | 404 => response = JSONResponse 404 (JDict [ (py "detail", JStr (py "Not Found")) ])
    | 405 => response =
               JSONResponse 405 (JDict [ (py "detail", JStr (py "Method Not Allowed")) ])
    | _ => True
    end.
Proof.
  intros response. subst response.
  destruct (route_of_path req) as [(r & Hin & Hp)|Hout].
  - rewrite (app_on_route req w r Hin Hp).
    destruct (decide (method req ∈ route_methods r)) as [Hm|Hm].
    + destruct (decide (endpoint r = Greet)) as [He|He].
      * rewrite He.
        destruct (call_greet_cases req w)
          as [(loc & ->)|[->|[(s & ->)| ->]]]; (split; [by_evaluation | exact I]).
      * destruct (call_other (endpoint r) req req w He) as [[H200| ->] _].
        -- rewrite H200. split; [by_evaluation | exact I].
        -- split; [by_evaluation | exact I].
    + split; [by_evaluation | reflexivity].
  - rewrite (app_off_route req w Hout).
    case_match; (split; [by_evaluation | done]).
Qed.

(** ** What the endpoints tell about the application *)

(** X7.  Every endpoint that [GET /info] lists is served: a request with the
    listed method and path reaches its handler in every world and with
    every body, so it is never answered 404, 405 or by a redirect. *)
Theorem listed_endpoints_are_served
    (w w' : World) (b b' : option json) (entries : list json) (e : json) (p m : str) :
  response_field "endpoints" (app (GET "/info" b) w) = Some (JList entries) →
  e ∈ entries → entry_route e = Some (p, m) →
  status_code (app {| method := m; path := p; body := b' |} w')
  ∈ [200; 400; 422; 500].
Proof.
  rewrite app_info, info_unfold.
  destruct (encodable (configured_environment w)); [|discriminate].
  intros [= <-] He Hr.
  repeat (apply elem_of_cons in He as [->|He]);
    [ injection Hr as <- <- .. | by apply elem_of_nil in He ].
  - change (status_code (app (GET "/" b') w') ∈ [200; 400; 422; 500]).
    rewrite app_root. by_evaluation.
  - change (status_code (app (GET "/health" b') w') ∈ [200; 400; 422; 500]).
    rewrite app_health. destruct (encodable _); by_evaluation.
  - change (status_code (app (GET "/hello" b') w') ∈ [200; 400; 422; 500]).
    rewrite app_hello. by_evaluation.
  - change (status_code (app (POST "/greet" b') w') ∈ [200; 400; 422; 500]).
    rewrite post_greet_any.
    destruct (validate_GreetingRequest b'); [by_evaluation|].
    case_match; [by_evaluation|]. case_match; by_evaluation.
  - change (status_code (app (GET "/info" b') w') ∈ [200; 400; 422; 500]).
    rewrite app_info. destruct (encodable _); by_evaluation.
Qed.

Lemma listed_endpoints_are_served_witness :
  status_code (app {| method := py "POST"; path := py "/greet"; body := None |}
                 example_world) ∈ [200; 400; 422; 500].
Proof.
  apply (listed_endpoints_are_served example_world example_world None None
           [ endpoint_entry "/" "GET" "Root endpoint";
             endpoint_entry "/health" "GET" "Health check";
             endpoint_entry "/hello" "GET" "Simple hello";
             endpoint_entry "/greet" "POST" "Personalized greeting";
             endpoint_entry "/info" "GET" "API information" ]
           (endpoint_entry "/greet" "POST" "Personalized greeting")
           (py "/greet") (py "POST"));
    [reflexivity | repeat constructor | reflexivity].
Defined.

(** X8.  The links of the root endpoint resolve: the paths it gives under
    [docs] and [health] are routes that a [GET] reaches, in every world,
    and they are answered 200 whenever the [ENVIRONMENT] value of that
    world can be encoded (the health check fails with 500 when it
    cannot). *)
Theorem root_links_resolve (w w' : World) (b b' : option json) (key : string) (p : str) :
  key = "docs"%string ∨ key = "health"%string →
  response_field key (app (GET "/" b) w) = Some (JStr p) →
  status_code (app {| method := py "GET"; path := p; body := b' |} w') ∈ [200; 500]
  ∧ (encodable (configured_environment w') = true →
     status_code (app {| method := py "GET"; path := p; body := b' |} w') = 200).
Proof.
  rewrite app_root. intros [-> | ->] [= <-].
  - change (status_code (app (GET "/docs" b') w') ∈ [200; 500]
            ∧ (encodable (configured_environment w') = true →
               status_code (app (GET "/docs" b') w') = 200)).
    rewrite (app_call (GET "/docs" b') w'
               {| route_path := py "/docs"; route_methods := [py "GET"; py "HEAD"];
                  endpoint := SwaggerUI |});
      [| by_evaluation | by left | by_evaluation].
    split; [by_evaluation | done].
  - change (status_code (app (GET "/health" b') w') ∈ [200; 500]
            ∧ (encodable (configured_environment w') = true →
               status_code (app (GET "/health" b') w') = 200)).
    rewrite app_health.
    destruct (encodable _); (split; [by_evaluation | done]).
Qed.

Lemma root_links_resolve_witness :
  status_code (app {| method := py "GET"; path := py "/health"; body := None |}
                 example_world) = 200.
Proof.
  apply (root_links_resolve example_world example_world None None "health"
           (py "/health")); [by right | reflexivity | reflexivity].
Defined.

(** X9.  One version, one name: the version that [health_check] and [info]
    put in their answers is the version the application object is created
    with, and the name of [info] is its title, in every world; these are
    the fields of [GET /health] and [GET /info] whenever the answers can be
    rendered. *)
Theorem version_and_name_agree (w : World) (b : option json) :
  health_version (health_check w) = version app_settings
  ∧ dict_get (py "version") (info w) = Some (JStr (version app_settings))
  ∧ dict_get (py "name") (info w) = Some (JStr (title app_settings))
  ∧ (encodable (configured_environment w) = true →
     response_field "version" (app (GET "/health" b) w)
     = Some (JStr (version app_settings))
     ∧ response_field "version" (app (GET "/info" b) w)
       = Some (JStr (version app_settings))
     ∧ response_field "name" (app (GET "/info" b) w)
       = Some (JStr (title app_settings))).
Proof.
  rewrite app_health, app_info, health_check_unfold, info_unfold.
  split; [reflexivity|]. split; [reflexivity|]. split; [reflexivity|].
  intros ->. repeat split.
Qed.

Lemma version_and_name_agree_witness :
  response_field "version" (app (GET "/health" None) example_world)
  = Some (JStr (py "1.0.0")).
Proof.
  destruct (version_and_name_agree example_world None) as (_ & _ & _ & H).
  apply H. reflexivity.
Defined.

(** ** The shape of the timestamps *)

Section TimestampShape.

Lemma digit_isdigit (n : N) : timestamp_char (digit n) = true.
Proof.
  unfold timestamp_char, isdigit, digit.
  pose proof (N.mod_upper_bound n 10 ltac:(done)) as Hlt.
  generalize dependent (n mod 10). intros r Hlt.
  replace ((48 <=? 48 + r) && (48 + r <=? 57)) with true; [done|].
  symmetry. apply andb_true_intro. split; apply N.leb_le; lia.
Qed.

Lemma zfill_chars (k : nat) (n : N) : forallb timestamp_char (zfill k n) = true.
Proof.
  revert n. induction k as [|k IH]; intros n; simpl; [done|].
  rewrite forallb_app, IH. simpl. by rewrite digit_isdigit.
Qed.

(** A timestamp is made of digits and [-], [T], [:], [.] only, and is 19
    characters long, or 26 with the microseconds. *)
Lemma isoformat_shape (d : datetime) :
  forallb timestamp_char (isoformat d) = true
  ∧ length (isoformat d) = if microsecond d =? 0 then 19%nat else 26%nat.
Proof.
  unfold isoformat. split.
  - rewrite !forallb_app, !zfill_chars.
    destruct (microsecond d =? 0); [reflexivity|].
    by rewrite forallb_app, zfill_chars.
  - rewrite !length_app, !length_zfill.
    destruct (microsecond d =? 0); [reflexivity|].
    by rewrite length_app, length_zfill.
Qed.

End TimestampShape.

(** X10.  Whatever the request, a [timestamp] in the answer is the ISO form of
    the clock reading of that request: digits and the separators [-], [T],
    [:], [.] only (so no [Z] and no UTC offset), 19 characters long when the
    microsecond of the reading is zero and 26 otherwise. *)
Theorem timestamps_are_naive_iso (req : Request) (w : World) (ts : str) :
  response_field "timestamp" (app req w) = Some (JStr ts) →
  ts = isoformat (clock w)
  ∧ forallb timestamp_char ts = true
  ∧ length ts = if microsecond (clock w) =? 0 then 19%nat else 26%nat.
Proof.
  intros Hts.
  assert (ts = isoformat (clock w)) as ->;
    [| split; [done | apply isoformat_shape] ].
  destruct (route_of_path req) as [(r & Hin & Hp)|Hout].
  - rewrite (app_on_route req w r Hin Hp) in Hts.
    destruct (decide (method req ∈ route_methods r)); [|discriminate].
    destruct (endpoint r); try discriminate.
    + change (call HealthCheck req w)
        with (render 200 (HealthResponse_json (health_check w))) in Hts.
      rewrite render_health, health_check_unfold in Hts.
      destruct (encodable _); [|discriminate]. by injection Hts as <-.
    + change (call Hello req w)
        with (render 200 (HelloResponse_json (hello w))) in Hts.
      rewrite render_hello, hello_unfold in Hts. by injection Hts as <-.
    + destruct (validate_GreetingRequest (body req)) as [loc|request] eqn:Hv.
      * rewrite (call_greet_invalid req w loc Hv) in Hts. discriminate.
      * rewrite (call_greet_valid req w request Hv) in Hts.
        destruct (name_is_blank request); [discriminate|].
        destruct (encodable _); [|discriminate].
        by injection Hts as <-.
    + change (call Info req w) with (render 200 (JDict (info w))) in Hts.
      rewrite render_info, info_unfold in Hts.
      destruct (encodable _); discriminate.
  - rewrite (app_off_route req w Hout) in Hts. by case_match.
Qed.

Lemma timestamps_are_naive_iso_witness :
  length (py "2024-02-29T07:05:00.001234") = 26%nat.
Proof.
  apply (timestamps_are_naive_iso (GET "/hello" None) example_world
           (py "2024-02-29T07:05:00.001234") eq_refl).
Defined.

(** ** What each handler reads *)

(** X11.  The root endpoint reads nothing: its answer is the same in all worlds.
    [hello] and [greet] read the clock only, and [info] reads the
    [ENVIRONMENT] variable only: its answer does not change with time. *)
Theorem handler_reads (w w' : World) (b : option json) :
  app (GET "/" b) w = app (GET "/" b) w'
  ∧ (clock w = clock w' →
     app (GET "/hello" b) w = app (GET "/hello" b) w'
     ∧ app (POST "/greet" b) w = app (POST "/greet" b) w')
  ∧ (environ w !! py "ENVIRONMENT" = environ w' !! py "ENVIRONMENT" →
     app (GET "/info" b) w = app (GET "/info" b) w').
Proof.
  split; [by rewrite !app_root|]. split.
  - intros Hclock. rewrite !app_hello, !hello_unfold, !post_greet_any.
    unfold greeting_response. by rewrite Hclock.
  - intros Henv. rewrite !app_info, !info_unfold.
    unfold configured_environment, getenv. by rewrite Henv.
Qed.

Lemma handler_reads_witness :
  app (GET "/info" None) example_world
  = app (GET "/info" None)
      {| environ := {[ py "HOME" := py "/root" ]};
         clock := {| year := 1999; month := 12; day := 31; hour := 23;
                     minute := 59; second := 59; microsecond := 0 |} |}.
Proof.
  apply (handler_reads example_world
           {| environ := {[ py "HOME" := py "/root" ]};
              clock := {| year := 1999; month := 12; day := 31; hour := 23;
                          minute := 59; second := 59; microsecond := 0 |} |} None).
  vm_compute. reflexivity.
Defined.

(** ** The order of the routes *)

Section RouteOrder.

Implicit Types (rs : list Route) (p m : str).

Lemma any_route_matches_accepts rs p m :
  any_route_matches rs p m = bool_decide (Exists (λ r, route_accepts r p) rs).
Proof.
  unfold any_route_matches. induction rs as [|r rs IH]; cbn [existsb].
  - symmetry. apply bool_decide_eq_false_2. by intros H%Exists_nil.
  - rewrite IH. unfold matches.
    destruct (decide (route_accepts r p)) as [Ha|Hna].
    + rewrite (bool_decide_eq_true_2 (Exists _ (r :: rs)))
        by (by apply Exists_cons_hd).
      by destruct (decide (m ∈ route_methods r)).
    + cbn [orb]. apply bool_decide_ext. rewrite Exists_cons. tauto.
Qed.

(** Routes that do not overlap can be listed in any order. *)
Lemma scan_Permutation rs rs' p m :
  unambiguous rs → rs ≡ₚ rs' →
  scan rs p m None = scan rs' p m None.
Proof.
  intros Hun Hperm.
  assert (unambiguous rs') as Hun'.
  { intros r r' Hr Hr'. apply Hun; by rewrite Hperm. }
  destruct (decide (Exists (λ r, route_accepts r p) rs)) as [Hex|Hno].
  - apply Exists_exists in Hex as (r & Hin & Ha).
    rewrite (scan_path rs p m r Hun Hin Ha).
    assert (r ∈ rs') as Hin' by by rewrite <- Hperm.
    by rewrite (scan_path rs' p m r Hun' Hin' Ha).
  - assert (∀ r, r ∈ rs → ¬ route_accepts r p) as Hout.
    { intros r Hr Ha. apply Hno, Exists_exists. eauto. }
    rewrite (scan_no_path rs p m None Hout).
    rewrite (scan_no_path rs' p m None); [done|].
    intros r Hr. apply Hout. by rewrite Hperm.
Qed.

End RouteOrder.

(** X12.  No route shadows another: the routes of the application, registered in
    any other order, make the same application. *)
Theorem route_order_irrelevant (rs : list Route) (req : Request) (w : World) :
  rs ≡ₚ routes → serve rs req w = app req w.
Proof.
  intros Hperm. change (app req w) with (serve routes req w). unfold serve.
  rewrite (scan_Permutation routes rs (path req) (method req) routes_unambiguous)
    by done.
  rewrite !any_route_matches_accepts.
  assert (bool_decide (Exists (λ r, route_accepts r (redirect_path (path req))) rs)
          = bool_decide
              (Exists (λ r, route_accepts r (redirect_path (path req))) routes))
    as ->; [|done].
  apply bool_decide_ext. rewrite !Exists_exists.
  split; intros (r & Hr & Ha); exists r; (split; [|done]).
  - by rewrite <- Hperm.
  - by rewrite Hperm.
Qed.

Lemma route_order_irrelevant_witness :
  serve (declared_routes ++ documentation_routes) (GET "/docs" None) example_world
  = app (GET "/docs" None) example_world.
Proof.
  apply (route_order_irrelevant (declared_routes ++ documentation_routes)).
  apply Permutation_app_comm.
Defined.

(** ** The test suite *)

(** One test, run in a world whose [ENVIRONMENT] value can be encoded. *)
Ltac run_test He :=
  lazymatch goal with
  | |- ?t ?n ?w = true => unfold t
  | |- ?t ?w = true => unfold t
  end;
  unfold TestMain.client_get, TestMain.client_post; cbn [forallb];
  rewrite ?app_root, ?app_health, ?app_hello, ?app_info, ?post_greet_any, ?He;
  reflexivity.

(** X13.  The tests of the repository do not depend on where and when they
    run: every collected test passes in every world, whatever the clock and
    the environment variables, as long as the value of [ENVIRONMENT] can be
    encoded (when it cannot, the tests of the health check and of the
    service information fail). *)
Theorem test_suite_passes (w : World) :
  encodable (configured_environment w) = true →
  Forall (λ t : TestMain.test, t w = true) TestMain.collected.
Proof.
  intros He.
  unfold TestMain.collected. repeat apply Forall_app_2; simpl map;
    repeat apply Forall_cons_2; try apply Forall_nil_2; run_test He.
Qed.

Lemma test_suite_passes_witness :
  Forall (λ t : TestMain.test, t example_world = true) TestMain.collected.
Proof. apply (test_suite_passes example_world). reflexivity. Defined.

(** Where the [ENVIRONMENT] value cannot be encoded, the tests of the
    health check and of the service information fail. *)
Example tests_fail_on_undecodable_environment :
  TestMain.test_health_returns_200 undecodable_world = false
  ∧ TestMain.test_info_returns_200 undecodable_world = false
  ∧ TestMain.test_hello_returns_200 undecodable_world = true.
Proof. repeat split; by vm_compute. Qed.

(** The two fixtures of the test suite hold what their names say: every
    sample name is greeted with 200, every invalid name is rejected with
    400, in every world. *)
Theorem fixtures_are_as_named (w : World) :
  Forall (λ n, TestMain.test_greet_with_multiple_names n w = true)
         TestMain.sample_names
  ∧ Forall (λ n, TestMain.test_greet_with_invalid_names n w = true)
           TestMain.invalid_names.
Proof.
  split; repeat apply Forall_cons_2; try apply Forall_nil_2;
    run_test (eq_refl true).
Qed.

(** ** What [strip] removes *)

Section StripShape.

Implicit Types (s l r : str).

Lemma lstrip_split s :
  ∃ l, s = l ++ lstrip s ∧ forallb isspace l = true.
Proof.
  induction s as [|c s (l & Hs & Hl)]; simpl.
  - by exists [].
  - destruct (isspace c) eqn:Hc.
    + exists (c :: l). simpl. rewrite Hc, Hl. split; [by f_equal | done].
    + by exists [].
Qed.

Lemma rstrip_split s :
  ∃ r, s = rstrip s ++ r ∧ forallb isspace r = true.
Proof.
  unfold rstrip. destruct (lstrip_split (rev s)) as (l & Hs & Hl).
  exists (rev l). split.
  - rewrite <- rev_app_distr, <- Hs. by rewrite rev_involutive.
  - by rewrite forallb_isspace_rev.
Qed.

(** What [rstrip] leaves ends with a character that is not a space. *)
Lemma rstrip_last s :
  match last (rstrip s) with
  | Some c => isspace c = false
  | None => True
  end.
Proof.
  unfold rstrip. pose proof (lstrip_head (rev s)) as Hh.
  destruct (lstrip (rev s)) as [|c t]; [done|].
  simpl rev. by rewrite last_snoc.
Qed.

(** [rstrip] keeps the first character of what it leaves. *)
Lemma rstrip_head s :
  match rstrip s with
  | [] => True
  | c :: _ => head s = Some c
  end.
Proof.
  destruct (rstrip_split s) as (r & Hs & _).
  destruct (rstrip s) as [|c t]; [done|]. by rewrite Hs.
Qed.

End StripShape.

(** X14.  [strip] takes whitespace off the two ends and nothing else: a string is
    whitespace, then its stripped form, then whitespace, and the stripped
    form neither starts nor ends with a whitespace character.  What is
    inside a name, spaces included, is never touched. *)
Theorem strip_shape (s : str) :
  (∃ l r, s = l ++ strip s ++ r
          ∧ forallb isspace l = true ∧ forallb isspace r = true)
  ∧ match strip s with
    | [] => True
    | c :: _ => isspace c = false
    end
  ∧ match last (strip s) with
    | Some c => isspace c = false
    | None => True
    end
  ∧ strip (strip s) = strip s.
Proof.
  assert (match strip s with
          | [] => True
          | c :: _ => isspace c = false
          end) as Hhead.
  { unfold strip. pose proof (rstrip_head (lstrip s)) as Hh.
    pose proof (lstrip_head s) as Hl.
    destruct (rstrip (lstrip s)) as [|c t]; [done|].
    destruct (lstrip s) as [|c' t']; [done|]. simpl in Hh. congruence. }
  assert (match last (strip s) with
          | Some c => isspace c = false
          | None => True
          end) as Hlast by apply rstrip_last.
  split; [|split; [done|split; [done|]]].
  - destruct (lstrip_split s) as (l & Hs & Hl).
    destruct (rstrip_split (lstrip s)) as (r & Hs' & Hr).
    exists l, r. unfold strip. by rewrite <- Hs', <- Hs.
  - destruct (strip s) as [|c t] eqn:Hst; [reflexivity|].
    unfold strip at 1. simpl lstrip. rewrite Hhead.
    unfold rstrip. destruct (rev (c :: t)) as [|c' t'] eqn:Hrev.
    { apply (f_equal (@rev N)) in Hrev. rewrite rev_involutive in Hrev.
      discriminate. }
    assert (last (c :: t) = Some c') as Hl.
    { apply (f_equal (@rev N)) in Hrev. rewrite rev_involutive in Hrev.
      rewrite Hrev. simpl rev. by rewrite last_snoc. }
    rewrite Hl in Hlast. simpl lstrip. rewrite Hlast, <- Hrev.
    by rewrite rev_involutive.
Qed.




(** ** Timestamps sort as the instants do *)

Section TimestampOrder.

Implicit Types (a b : list N) (n m : N) (k : nat).

Lemma lex_ltb_irrefl a : lex_ltb a a = false.
Proof.
  induction a as [|x a IH]; simpl; [done|].
  by rewrite N.ltb_irrefl, IH, andb_false_r.
Qed.

(** Two strings that start with blocks of the same length compare by the
    blocks, then by the rest. *)
Lemma lex_ltb_app a a' b b' :
  length a = length a' →
  lex_ltb (a ++ b) (a' ++ b') = lex_ltb a a' || (bool_decide (a = a') && lex_ltb b b').
Proof.
  revert a'. induction a as [|x a IH]; intros [|y a'] Hlen; try discriminate.
  - simpl. by destruct b, b'.
  - simpl in Hlen. injection Hlen as Hlen. simpl. rewrite (IH a' Hlen).
    destruct (N.ltb_spec x y) as [Hlt|Hge]; simpl; [done|].
    destruct (N.eqb_spec x y) as [->|Hne]; simpl.
    + f_equal. f_equal. apply bool_decide_ext. split; congruence.
    + by rewrite (bool_decide_eq_false_2 (x :: a = y :: a')) by congruence.
Qed.

Lemma zfill_eq k n m :
  n < 10 ^ N.of_nat k → m < 10 ^ N.of_nat k →
  zfill k n = zfill k m ↔ n = m.
Proof.
  intros Hn Hm. split; [|congruence]. intros Heq.
  pose proof (number_from_zfill k 0 n) as Hnn.
  pose proof (number_from_zfill k 0 m) as Hmm.
  rewrite Heq, Hmm in Hnn. injection Hnn as Hnn.
  rewrite !N.mod_small in Hnn by done. lia.
Qed.

Lemma digit_ltb n m : (digit n <? digit m) = (n mod 10 <? m mod 10).
Proof.
  unfold digit. generalize (n mod 10) (m mod 10). intros x y.
  destruct (N.ltb_spec x y), (N.ltb_spec (48 + x) (48 + y)); done || lia.
Qed.

Lemma lt_by_digits n m :
  (n <? m) = (n / 10 <? m / 10) || ((n / 10 =? m / 10) && (n mod 10 <? m mod 10)).
Proof.
  pose proof (N.div_mod n 10 ltac:(done)) as Hn.
  pose proof (N.div_mod m 10 ltac:(done)) as Hm.
  pose proof (N.mod_upper_bound n 10 ltac:(done)) as Hrn.
  pose proof (N.mod_upper_bound m 10 ltac:(done)) as Hrm.
  generalize dependent (n mod 10). generalize dependent (m mod 10).
  generalize dependent (n / 10). generalize dependent (m / 10).
  intros qm qn rm Hm Hrm rn Hn Hrn.
  destruct (N.ltb_spec n m), (N.ltb_spec qn qm), (N.eqb_spec qn qm),
    (N.ltb_spec rn rm); simpl; done || lia.
Qed.

(** Zero-padded numbers of one width compare as the numbers do. *)
Lemma lex_ltb_zfill k n m :
  n < 10 ^ N.of_nat k → m < 10 ^ N.of_nat k →
  lex_ltb (zfill k n) (zfill k m) = (n <? m).
Proof.
  revert n m. induction k as [|k IH]; intros n m Hn Hm.
  - simpl in *. destruct (N.ltb_spec n m); [lia | done].
  - rewrite Nat2N.inj_succ, N.pow_succ_r' in Hn, Hm.
    assert (n / 10 < 10 ^ N.of_nat k) as Hn'
      by (apply N.Div0.div_lt_upper_bound; lia).
    assert (m / 10 < 10 ^ N.of_nat k) as Hm'
      by (apply N.Div0.div_lt_upper_bound; lia).
    cbn [zfill]. rewrite lex_ltb_app by by rewrite !length_zfill.
    rewrite (IH _ _ Hn' Hm'). simpl lex_ltb.
    rewrite andb_false_r, orb_false_r, digit_ltb, (lt_by_digits n m).
    f_equal. f_equal.
    destruct (N.eqb_spec (n / 10) (m / 10)) as [Heq|Hne].
    + rewrite Heq. by rewrite bool_decide_eq_true_2.
    + rewrite bool_decide_eq_false_2; [done|].
      by rewrite (zfill_eq k _ _ Hn' Hm').
Qed.

Lemma lex_ltb_zfill_app k n m b b' :
  n < 10 ^ N.of_nat k → m < 10 ^ N.of_nat k →
  lex_ltb (zfill k n ++ b) (zfill k m ++ b')
  = (n <? m) || ((n =? m) && lex_ltb b b').
Proof.
  intros Hn Hm. rewrite lex_ltb_app by by rewrite !length_zfill.
  rewrite (lex_ltb_zfill k n m Hn Hm). f_equal. f_equal.
  destruct (N.eqb_spec n m) as [->|Hne].
  - by rewrite bool_decide_eq_true_2.
  - rewrite bool_decide_eq_false_2; [done|]. by rewrite (zfill_eq k n m Hn Hm).
Qed.

Lemma lex_ltb_sep (c : N) b b' :
  lex_ltb ([c] ++ b) ([c] ++ b') = lex_ltb b b'.
Proof. simpl. by rewrite N.ltb_irrefl, N.eqb_refl. Qed.

(** The fractions compare as the microseconds do. *)
Lemma lex_ltb_fraction n m :
  n < 1000000 → m < 1000000 →
  lex_ltb (if n =? 0 then [] else [46] ++ zfill 6 n)
          (if m =? 0 then [] else [46] ++ zfill 6 m)
  = (n <? m) || ((n =? m) && false).
Proof.
  intros Hn Hm. rewrite andb_false_r, orb_false_r.
  destruct (N.eqb_spec n 0) as [->|Hn0], (N.eqb_spec m 0) as [->|Hm0].
  - reflexivity.
  - simpl. symmetry. apply N.ltb_lt. lia.
  - destruct (zfill 6 n); simpl; symmetry; apply N.ltb_ge; lia.
  - rewrite lex_ltb_sep. by apply (lex_ltb_zfill 6).
Qed.

End TimestampOrder.

(** X16.  Timestamps sort as the instants do: for two clock readings, the
    timestamp of one is below the timestamp of the other as a string
    exactly when the first instant is before the second, also when one of
    the two has no fraction. *)
Theorem timestamps_sort_chronologically (d1 d2 : datetime) :
  valid_datetime d1 = true → valid_datetime d2 = true →
  lex_ltb (isoformat d1) (isoformat d2) = datetime_ltb d1 d2.
Proof.
  assert (∀ d, valid_datetime d = true →
            year d < 10 ^ N.of_nat 4 ∧ month d < 10 ^ N.of_nat 2
            ∧ day d < 10 ^ N.of_nat 2 ∧ hour d < 10 ^ N.of_nat 2
            ∧ minute d < 10 ^ N.of_nat 2 ∧ second d < 10 ^ N.of_nat 2
            ∧ microsecond d < 1000000) as Hbounds.
  { intros [y mo dy h mi se us] Hv. unfold valid_datetime in Hv. simpl in Hv.
    repeat (apply andb_prop in Hv as [Hv ?]).
    repeat match goal with
           | H : (_ <=? _) = true |- _ => apply N.leb_le in H
           | H : (_ <? _) = true |- _ => apply N.ltb_lt in H
           end.
    assert (dy <= 31).
    { etransitivity; [eassumption|]. unfold days_in_month.
      repeat case_match; lia. }
    simpl. lia. }
  intros Hv1 Hv2.
  destruct (Hbounds d1 Hv1) as (Hy1 & Hmo1 & Hd1 & Hh1 & Hmi1 & Hs1 & Hus1).
  destruct (Hbounds d2 Hv2) as (Hy2 & Hmo2 & Hd2 & Hh2 & Hmi2 & Hs2 & Hus2).
  unfold isoformat, datetime_ltb.
  change (py "-") with [45]. change (py "T") with [84].
  change (py ":") with [58]. change (py ".") with [46].
  rewrite (lex_ltb_zfill_app 4) by done. rewrite lex_ltb_sep.
  rewrite (lex_ltb_zfill_app 2) by done. rewrite lex_ltb_sep.
  rewrite (lex_ltb_zfill_app 2) by done. rewrite lex_ltb_sep.
  rewrite (lex_ltb_zfill_app 2) by done. rewrite lex_ltb_sep.
  rewrite (lex_ltb_zfill_app 2) by done. rewrite lex_ltb_sep.
  rewrite (lex_ltb_zfill_app 2) by done.
  rewrite (lex_ltb_fraction _ _ Hus1 Hus2).
  reflexivity.
Qed.

Lemma timestamps_sort_chronologically_witness :
  lex_ltb (py "2024-02-29T07:05:00") (py "2024-02-29T07:05:00.001234") = true.
Proof.
  apply (timestamps_sort_chronologically
           {| year := 2024; month := 2; day := 29; hour := 7; minute := 5;
              second := 0; microsecond := 0 |}
           example_clock); reflexivity.
Defined.
